(** * Photobooth: capture pipeline, session state and composite renderer

    A shallow embedding of [src/app/page.tsx] (the [PhotoBoothApp] React
    component) and the properties of its capture-and-composite pipeline.

    Conventions of the embedding.
    - React state ([useState]) is the record [AppState]; a setter call is a
      field update.  An event handler is entered with the bindings of the
      latest render, i.e. it reads the current state; an [async] handler that
      resumes after an [await] keeps the bindings of the render it was started
      from (they are stored in the pending continuation).
    - [setTimeout] registers a callback with a due time on a logical clock in
      milliseconds; the event loop fires pending callbacks one at a time.
    - What the browser decides (whether a ref is attached, what
      [getUserMedia] answers, the bytes [toDataURL] produces) is an input of
      the step that observes it.
    - Canvas coordinates and sizes are integers ([Z]): every number the
      component passes to the canvas is an integer literal or a video
      dimension. *)

From Stdlib Require Import ZArith List String Ascii Bool Lia Permutation.
From Stdlib Require Import DecimalString DecimalZ.
Import ListNotations.

Local Open Scope Z_scope.
Local Open Scope string_scope.
Local Open Scope list_scope.

(* ===================================================================== *)
(** ** Filter catalog (page.tsx lines 8, 30-38) *)
(* ===================================================================== *)

(** [type FilterType = "90s" | "2000s" | "Noir" | ...] ; the two names that
    start with a digit get the prefix [F]. *)
Inductive FilterType : Set :=
| F90s | F2000s | Noir | Fisheye | Rainbow | Glitch | Crosshatch.

Definition FilterType_eqb (a b : FilterType) : bool :=
  match a, b with
  | F90s, F90s | F2000s, F2000s | Noir, Noir | Fisheye, Fisheye
  | Rainbow, Rainbow | Glitch, Glitch | Crosshatch, Crosshatch => true
  | _, _ => false
  end.

Record FilterEntry : Set := mkFilter {
  name : FilterType;
  label : string;
  css : string
}.

Definition availableFilters : list FilterEntry :=
  [ mkFilter F90s "90s" "sepia(0.8) saturate(1.4) hue-rotate(315deg) brightness(1.1)";
    mkFilter F2000s "2000s" "saturate(1.6) contrast(1.2) brightness(1.1) hue-rotate(10deg)";
    mkFilter Noir "Noir" "grayscale(1) contrast(1.3) brightness(0.9)";
    mkFilter Fisheye "Fisheye" "contrast(1.2) saturate(1.3)";
    mkFilter Rainbow "Rainbow" "hue-rotate(180deg) saturate(2) brightness(1.2)";
    mkFilter Glitch "Glitch" "hue-rotate(90deg) saturate(2) contrast(1.5)";
    mkFilter Crosshatch "Crosshatch" "contrast(1.4) brightness(0.8) saturate(0.8)" ].

(** [availableFilters.find((f) => f.name === currentFilter)?.css], or the
    empty string when nothing is found. *)
Definition selectedFilterOf (currentFilter : FilterType) : string :=
  match find (fun f => FilterType_eqb (name f) currentFilter) availableFilters with
  | Some f => css f
  | None => EmptyString
  end.

(* ===================================================================== *)
(** ** The 2D drawing surface used by the capture (page.tsx lines 175-198) *)
(* ===================================================================== *)

Module Canvas.

(** The part of the current transformation matrix the component can reach:
    [x' = a*x + e], [y' = d*y + f] ([scale] keeps the matrix diagonal). *)
Record Transform : Set := mkTransform { a : Z; d : Z; e : Z; f : Z }.

Definition identity : Transform := mkTransform 1 1 0 0.

(** The drawing state that [save] pushes and [restore] pops; [filter]
    belongs to it, like the transform. *)
Record DrawingState : Set := mkDrawingState {
  filter : string;
  transform : Transform
}.

Definition defaultState : DrawingState := mkDrawingState "none" identity.

(** [videoRef.current]: the element's intrinsic size and the frame it
    shows (an opaque identifier). *)
Record HTMLVideoElement : Set := mkVideo {
  videoWidth : Z;
  videoHeight : Z;
  currentFrame : nat
}.

(** One [drawImage] as the bitmap sees it: the source, the destination
    corner in user space, and the drawing state in force at that moment. *)
Record Draw : Set := mkDraw {
  source : HTMLVideoElement;
  dx : Z;
  dy : Z;
  drawnWith : DrawingState
}.

Record HTMLCanvasElement : Set := mkCanvas {
  width : Z;
  height : Z;
  state : DrawingState;
  stack : list DrawingState;
  bitmap : list Draw
}.

Definition blank : HTMLCanvasElement := mkCanvas 300 150 defaultState [] [].

(** [canvas.width = w]: assigning a dimension clears the bitmap and resets
    the context to its default state. *)
Definition setWidth (w : Z) (c : HTMLCanvasElement) : HTMLCanvasElement :=
  mkCanvas w (height c) defaultState [] [].

Definition setHeight (h : Z) (c : HTMLCanvasElement) : HTMLCanvasElement :=
  mkCanvas (width c) h defaultState [] [].

(** [context.filter = v] *)
Definition setFilter (v : string) (c : HTMLCanvasElement) : HTMLCanvasElement :=
  mkCanvas (width c) (height c)
           (mkDrawingState v (transform (state c))) (stack c) (bitmap c).

Definition save (c : HTMLCanvasElement) : HTMLCanvasElement :=
  mkCanvas (width c) (height c) (state c) (state c :: stack c) (bitmap c).

(** [restore] with an empty stack does nothing. *)
Definition restore (c : HTMLCanvasElement) : HTMLCanvasElement :=
  match stack c with
  | [] => c
  | s :: rest => mkCanvas (width c) (height c) s rest (bitmap c)
  end.

Definition scale (sx sy : Z) (c : HTMLCanvasElement) : HTMLCanvasElement :=
  let t := transform (state c) in
  mkCanvas (width c) (height c)
           (mkDrawingState (filter (state c))
                           (mkTransform (a t * sx) (d t * sy) (e t) (f t)))
           (stack c) (bitmap c).

(** [context.drawImage(video, x, y)] *)
Definition drawImage (v : HTMLVideoElement) (x y : Z)
           (c : HTMLCanvasElement) : HTMLCanvasElement :=
  mkCanvas (width c) (height c) (state c) (stack c)
           (bitmap c ++ [mkDraw v x y (state c)]).

(** Where the left edge of source column [col] lands on the bitmap, and
    which way the column extends from there ([a] is [1] or [-1]). *)
Definition deviceX (dr : Draw) (col : Z) : Z :=
  let t := transform (drawnWith dr) in a t * (dx dr + col) + e t.

Definition deviceY (dr : Draw) (row : Z) : Z :=
  let t := transform (drawnWith dr) in d t * (dy dr + row) + f t.

(** The bitmap column (pixel cell [[k, k+1)]) that receives source column
    [col]: the cell spans [deviceX col] and [deviceX (col+1)]. *)
Definition bitmapColumn (dr : Draw) (col : Z) : Z :=
  Z.min (deviceX dr col) (deviceX dr (col + 1)).

End Canvas.

(** What the browser supplies when [captureCurrentFrame] runs:
    [videoRef.current], whether [canvasRef.current] is attached, whether
    [getContext("2d")] answers a context, and the string
    [canvas.toDataURL("image/jpeg", 0.9)] encodes the bitmap to. *)
Record CaptureEnv : Set := mkCaptureEnv {
  videoRef_current : option Canvas.HTMLVideoElement;
  canvasRef_current : bool;
  getContext_2d : bool;
  toDataURL : string
}.

(** [captureCurrentFrame] (lines 175-198).  [currentFilter] is the variable
    the callback closes over.  The result is the data URL ([None] for
    [null]) and the canvas after the call. *)
Definition captureCurrentFrame (currentFilter : FilterType) (env : CaptureEnv)
           (canvas : Canvas.HTMLCanvasElement)
  : option string * Canvas.HTMLCanvasElement :=
  match videoRef_current env, canvasRef_current env with
  | Some video, true =>
      if negb (getContext_2d env) then (None, canvas)
      else
        let c := Canvas.setWidth (Canvas.videoWidth video) canvas in
        let c := Canvas.setHeight (Canvas.videoHeight video) c in
        let selectedFilter := selectedFilterOf currentFilter in
        let c := Canvas.setFilter selectedFilter c in
        let c := Canvas.save c in
        let c := Canvas.scale (-1) 1 c in
        let c := Canvas.drawImage video (- Canvas.width c) 0 c in
        let c := Canvas.restore c in
        let c := Canvas.setFilter "none" c in
        (Some (toDataURL env), c)
  | _, _ => (None, canvas)
  end.

(* ===================================================================== *)
(** ** Component state (page.tsx lines 10-28) *)
(* ===================================================================== *)

Record CapturedPhoto : Set := mkPhoto {
  dataUrl : string;
  timestamp : Z
}.

(** A [MediaStream] as far as the component looks at it: its tracks. *)
Record MediaStream : Set := mkStream {
  streamId : nat;
  getTracks : list nat
}.

(** The nine [useState] cells, with their initial values in [initialState]. *)
Record AppState : Set := mkApp {
  stream : option MediaStream;
  isCapturing : bool;
  countdown : option string;
  capturedPhotos : list CapturedPhoto;
  currentFilter : FilterType;
  showPhotoStrip : bool;
  isLoading : bool;
  showCurtains : bool;
  curtainsAnimating : bool
}.

Definition initialState : AppState :=
  mkApp None false None [] F2000s false true true false.

(** The four screens the component returns (lines 323, 415, 463, 530). *)
Inductive SessionPhase : Set := Intro | AwaitingDevice | Live | Reviewing.

Definition SessionPhase_eqb (p q : SessionPhase) : bool :=
  match p, q with
  | Intro, Intro | AwaitingDevice, AwaitingDevice
  | Live, Live | Reviewing, Reviewing => true
  | _, _ => false
  end.

Definition phase (s : AppState) : SessionPhase :=
  if showCurtains s then Intro
  else if isLoading s then AwaitingDevice
  else if negb (showPhotoStrip s) then Live
  else Reviewing.

(** [disabled={isCapturing || capturedPhotos.length >= 3}] (line 513) *)
Definition shutterDisabled (s : AppState) : bool :=
  isCapturing s || (3 <=? List.length (capturedPhotos s))%nat.

(* ===================================================================== *)
(** ** The browser around the component *)
(* ===================================================================== *)

(** A value a promise rejects with or a [throw] raises: an [Error] with its
    message, or something else, of which only its truthiness is looked at. *)
Inductive JsValue : Set :=
| JsError (message : string)
| JsOther (truthy : bool).

Inductive CameraConfig : Set := IdealFrontFacing | VideoOnly | Fixed640x480.

Definition cameraConfigs : list CameraConfig :=
  [IdealFrontFacing; VideoOnly; Fixed640x480].

(** How the readiness promise of lines 115-137 settles. *)
Inductive VideoOutcome : Set :=
| Played
| PlayRejected (error : JsValue)
| ErrorEvent
| LoadingTimeout.

(** What the browser answers to the callback being run. *)
Record Browser : Set := mkBrowser {
  mediaDevices_getUserMedia : bool;
  getUserMedia : CameraConfig -> JsValue + MediaStream;
  videoRef_attached : bool;
  videoOutcome : VideoOutcome;
  captureEnv : CaptureEnv
}.

(** A callback waiting in the event loop, with the variables it closes over.
    - [OpenCurtains]: the timeout of [initializePhotoBooth];
    - [GetUserMediaSettled]: [requestCameraAccess] suspended in its loop of
      [getUserMedia] calls;
    - [VideoSettled t0]: [requestCameraAccess] suspended on the readiness
      promise created at time [t0];
    - [CountdownResume i filter]: [handlePhotoCapture] suspended on the
      one-second wait of loop index [i]; [filter] is the [currentFilter] its
      [captureCurrentFrame] closed over;
    - [ShowPhotoStrip]: [() => setShowPhotoStrip(true)]. *)
Inductive Callback : Set :=
| OpenCurtains
| GetUserMediaSettled
| VideoSettled (createdAt : Z)
| CountdownResume (i : nat) (closureFilter : FilterType)
| ShowPhotoStrip.

Record World : Set := mkWorld {
  app : AppState;
  now : Z;
  pending : list (Z * Callback);
  alerts : list string;
  canvas : Canvas.HTMLCanvasElement;
  stoppedTracks : list nat
}.

Definition initialWorld : World :=
  mkWorld initialState 0 [] [] Canvas.blank [].

(* ===================================================================== *)
(** ** A state monad for handler bodies *)
(* ===================================================================== *)

Definition M (A : Type) : Type := World -> A * World.

Definition ret {A} (x : A) : M A := fun w => (x, w).

Definition bind {A B} (c : M A) (k : A -> M B) : M B :=
  fun w => let (x, w') := c w in k x w'.

Definition exec {A} (c : M A) (w : World) : World := snd (c w).

Declare Scope handler_scope.
Delimit Scope handler_scope with handler.
Notation "x <- c ;; k" := (bind c (fun x => k))
  (at level 61, c at next level, right associativity) : handler_scope.
Notation "c ;; k" := (bind c (fun _ => k))
  (at level 61, right associativity) : handler_scope.
Local Open Scope handler_scope.

Definition getApp : M AppState := fun w => (app w, w).

Definition modifyApp (g : AppState -> AppState) : M unit :=
  fun w => (tt, mkWorld (g (app w)) (now w) (pending w) (alerts w)
                        (canvas w) (stoppedTracks w)).

(** [Date.now()] *)
Definition Date_now : M Z := fun w => (now w, w).

(** [setTimeout(cb, delay)] *)
Definition setTimeout (cb : Callback) (delay : Z) : M unit :=
  fun w => (tt, mkWorld (app w) (now w) (pending w ++ [(now w + delay, cb)])
                        (alerts w) (canvas w) (stoppedTracks w)).

(** A promise whose settlement the handler awaits: it may resume any time
    from now on. *)
Definition await (cb : Callback) : M unit := setTimeout cb 0.

Definition alert (message : string) : M unit :=
  fun w => (tt, mkWorld (app w) (now w) (pending w) (alerts w ++ [message])
                        (canvas w) (stoppedTracks w)).

(** Updating one [useState] cell leaves the other eight alone. *)
Definition withStream (v : option MediaStream) (s : AppState) : AppState :=
  mkApp v (isCapturing s) (countdown s) (capturedPhotos s) (currentFilter s)
        (showPhotoStrip s) (isLoading s) (showCurtains s) (curtainsAnimating s).

Definition withIsCapturing (v : bool) (s : AppState) : AppState :=
  mkApp (stream s) v (countdown s) (capturedPhotos s) (currentFilter s)
        (showPhotoStrip s) (isLoading s) (showCurtains s) (curtainsAnimating s).

Definition withCountdown (v : option string) (s : AppState) : AppState :=
  mkApp (stream s) (isCapturing s) v (capturedPhotos s) (currentFilter s)
        (showPhotoStrip s) (isLoading s) (showCurtains s) (curtainsAnimating s).

Definition withCapturedPhotos (v : list CapturedPhoto) (s : AppState) : AppState :=
  mkApp (stream s) (isCapturing s) (countdown s) v (currentFilter s)
        (showPhotoStrip s) (isLoading s) (showCurtains s) (curtainsAnimating s).

Definition withCurrentFilter (v : FilterType) (s : AppState) : AppState :=
  mkApp (stream s) (isCapturing s) (countdown s) (capturedPhotos s) v
        (showPhotoStrip s) (isLoading s) (showCurtains s) (curtainsAnimating s).

Definition withShowPhotoStrip (v : bool) (s : AppState) : AppState :=
  mkApp (stream s) (isCapturing s) (countdown s) (capturedPhotos s)
        (currentFilter s) v (isLoading s) (showCurtains s) (curtainsAnimating s).

Definition withIsLoading (v : bool) (s : AppState) : AppState :=
  mkApp (stream s) (isCapturing s) (countdown s) (capturedPhotos s)
        (currentFilter s) (showPhotoStrip s) v (showCurtains s) (curtainsAnimating s).

Definition withShowCurtains (v : bool) (s : AppState) : AppState :=
  mkApp (stream s) (isCapturing s) (countdown s) (capturedPhotos s)
        (currentFilter s) (showPhotoStrip s) (isLoading s) v (curtainsAnimating s).

Definition withCurtainsAnimating (v : bool) (s : AppState) : AppState :=
  mkApp (stream s) (isCapturing s) (countdown s) (capturedPhotos s)
        (currentFilter s) (showPhotoStrip s) (isLoading s) (showCurtains s) v.

(** The [useState] setters. *)
Definition setIsCapturing (v : bool) : M unit := modifyApp (withIsCapturing v).

Definition setCountdown (v : option string) : M unit := modifyApp (withCountdown v).

(** [setCapturedPhotos(value)] *)
Definition putCapturedPhotos (v : list CapturedPhoto) : M unit :=
  modifyApp (withCapturedPhotos v).

(** [setCapturedPhotos(updater)]: the updater receives the latest value and
    may itself have effects. *)
Definition setCapturedPhotos
           (updater : list CapturedPhoto -> M (list CapturedPhoto)) : M unit :=
  s <- getApp ;;
  v <- updater (capturedPhotos s) ;;
  putCapturedPhotos v.

Definition setCurrentFilter (v : FilterType) : M unit := modifyApp (withCurrentFilter v).

Definition setShowPhotoStrip (v : bool) : M unit := modifyApp (withShowPhotoStrip v).

Definition setIsLoading (v : bool) : M unit := modifyApp (withIsLoading v).

Definition setShowCurtains (v : bool) : M unit := modifyApp (withShowCurtains v).

Definition setCurtainsAnimating (v : bool) : M unit :=
  modifyApp (withCurtainsAnimating v).

(** [setStream(mediaStream)], followed by the cleanup of the effect of lines
    150-156, which React runs because [stream] changed: every track of the
    stream that was held before is stopped. *)
Definition setStream (v : MediaStream) : M unit :=
  fun w =>
    let released := match stream (app w) with
                    | Some old => getTracks old
                    | None => []
                    end in
    (tt, mkWorld (withStream (Some v) (app w))
                 (now w) (pending w) (alerts w) (canvas w)
                 (stoppedTracks w ++ released)).

(** [captureCurrentFrame()] run on the component's hidden canvas. *)
Definition captureCurrentFrameM (closureFilter : FilterType) (env : CaptureEnv)
  : M (option string) :=
  fun w =>
    let (r, c) := captureCurrentFrame closureFilter env (canvas w) in
    (r, mkWorld (app w) (now w) (pending w) (alerts w) c (stoppedTracks w)).

(* ===================================================================== *)
(** ** Device acquisition (page.tsx lines 57-148) *)
(* ===================================================================== *)

Definition nl : string := String (ascii_of_nat 10) EmptyString.

(** The template literal of lines 144-146. *)
Definition cameraErrorAlert (errorMessage : string) : string :=
  String.concat EmptyString
    [ "Camera Error: "; errorMessage; nl; nl; "Please:"; nl;
      "1. Allow camera permissions"; nl;
      "2. Make sure no other app is using the camera"; nl;
      "3. Try refreshing the page" ].

Definition truthy (v : JsValue) : bool :=
  match v with
  | JsError _ => true
  | JsOther t => t
  end.

(** The [catch] block of [requestCameraAccess] (lines 141-147). *)
Definition requestCameraAccess_catch (error : JsValue) : M unit :=
  setIsLoading false ;;
  let errorMessage := match error with
                      | JsError message => message
                      | JsOther _ => "Unknown camera error"
                      end in
  alert (cameraErrorAlert errorMessage).

(** The [for] loop of lines 96-104: the first configuration that yields a
    stream ends the loop; a rejection is remembered in [lastError]. *)
Fixpoint tryConfigs (gum : CameraConfig -> JsValue + MediaStream)
         (configs : list CameraConfig) (lastError : option JsValue)
  : option MediaStream * option JsValue :=
  match configs with
  | [] => (None, lastError)
  | config :: rest =>
      match gum config with
      | inr mediaStream => (Some mediaStream, lastError)
      | inl error => tryConfigs gum rest (Some error)
      end
  end.

(** [requestCameraAccess] up to its first [await] (lines 66-98). *)
Definition requestCameraAccess (b : Browser) : M unit :=
  if negb (mediaDevices_getUserMedia b)
  then requestCameraAccess_catch (JsError "Camera not supported by this browser")
  else await GetUserMediaSettled.

(** ... from the end of the loop to the readiness promise (lines 106-138). *)
Definition requestCameraAccess_afterLoop (b : Browser) : M unit :=
  match tryConfigs (getUserMedia b) cameraConfigs None with
  | (None, lastError) =>
      requestCameraAccess_catch
        match lastError with
        | Some error => if truthy error then error
                        else JsError "Could not access camera"
        | None => JsError "Could not access camera"
        end
  | (Some mediaStream, _) =>
      setStream mediaStream ;;
      if videoRef_attached b
      then (t <- Date_now ;; await (VideoSettled t))
      else setIsLoading false
  end.

(** The clock cannot show less than [t] when something that was scheduled
    for [t] is observed. *)
Definition elapse (t : Z) : M unit :=
  fun w => (tt, mkWorld (app w) (Z.max (now w) t) (pending w) (alerts w)
                        (canvas w) (stoppedTracks w)).

(** ... and from the settlement of that promise to the end (lines 115-147). *)
Definition requestCameraAccess_afterVideo (createdAt : Z) (b : Browser) : M unit :=
  match videoOutcome b with
  | Played => setIsLoading false
  | PlayRejected error => requestCameraAccess_catch error
  | ErrorEvent => requestCameraAccess_catch (JsOther true)
  | LoadingTimeout =>
      elapse (createdAt + 10000) ;;
      requestCameraAccess_catch (JsError "Video loading timeout")
  end.

(** [initializePhotoBooth] (lines 57-63) and the callback it schedules. *)
Definition initializePhotoBooth : M unit :=
  setCurtainsAnimating true ;;
  setTimeout OpenCurtains 2000.

Definition openCurtains (b : Browser) : M unit :=
  setShowCurtains false ;;
  requestCameraAccess b.

(* ===================================================================== *)
(** ** Capture pipeline (page.tsx lines 200-230) and reset (317-321) *)
(* ===================================================================== *)

Definition countdownSequence : list string :=
  ["3..."; "2..."; "1..."; "Smile..."].

(** [if (photoData)] on a [string | null]. *)
Definition isTruthy (photoData : option string) : bool :=
  match photoData with
  | Some s => negb (String.eqb s EmptyString)
  | None => false
  end.

(** The updater of lines 220-226. *)
Definition appendPhoto (newPhoto : CapturedPhoto)
           (prevPhotos : list CapturedPhoto) : M (list CapturedPhoto) :=
  let updatedPhotos := prevPhotos ++ [newPhoto] in
  (if (List.length updatedPhotos =? 3)%nat
   then setTimeout ShowPhotoStrip 500
   else ret tt) ;;
  ret updatedPhotos.

(** [handlePhotoCapture] from the end of the loop to its last statement
    (lines 212-229). *)
Definition handlePhotoCapture_finish (closureFilter : FilterType)
           (env : CaptureEnv) : M unit :=
  setCountdown None ;;
  photoData <- captureCurrentFrameM closureFilter env ;;
  (if isTruthy photoData
   then
     t <- Date_now ;;
     let newPhoto := mkPhoto (match photoData with Some s => s | None => EmptyString end) t in
     setCapturedPhotos (appendPhoto newPhoto)
   else ret tt) ;;
  setIsCapturing false.

(** The loop of lines 207-210 entered at index [i]: show stage [i] and wait
    one second, or leave the loop when [i] is past the last stage. *)
Definition handlePhotoCapture_loop (i : nat) (closureFilter : FilterType)
           (env : CaptureEnv) : M unit :=
  match nth_error countdownSequence i with
  | Some stage =>
      setCountdown (Some stage) ;;
      setTimeout (CountdownResume i closureFilter) 1000
  | None => handlePhotoCapture_finish closureFilter env
  end.

(** [handlePhotoCapture] from its entry to the first wait.  The loop is
    entered at index 0, which is a stage, so no frame is read here. *)
Definition handlePhotoCapture : M unit :=
  s <- getApp ;;
  if isCapturing s || (3 <=? List.length (capturedPhotos s))%nat then ret tt
  else
    setIsCapturing true ;;
    match nth_error countdownSequence 0 with
    | Some stage =>
        setCountdown (Some stage) ;;
        setTimeout (CountdownResume 0 (currentFilter s)) 1000
    | None => ret tt
    end.

(** [resetPhotoBooth] *)
Definition resetPhotoBooth : M unit :=
  setShowPhotoStrip false ;;
  putCapturedPhotos [] ;;
  setCountdown None.

(* ===================================================================== *)
(** ** The event loop *)
(* ===================================================================== *)

Definition runCallback (cb : Callback) (b : Browser) : M unit :=
  match cb with
  | OpenCurtains => openCurtains b
  | GetUserMediaSettled => requestCameraAccess_afterLoop b
  | VideoSettled createdAt => requestCameraAccess_afterVideo createdAt b
  | CountdownResume i closureFilter =>
      handlePhotoCapture_loop (S i) closureFilter (captureEnv b)
  | ShowPhotoStrip => setShowPhotoStrip true
  end.

Definition removeAt {A} (k : nat) (l : list A) : list A :=
  firstn k l ++ skipn (S k) l.

(** Take the [k]-th pending callback out of the queue; the clock is at least
    its due time when it runs. *)
Definition dequeue (k : nat) (w : World) : option (Callback * World) :=
  match nth_error (pending w) k with
  | Some (due, cb) =>
      Some (cb, mkWorld (app w) (Z.max (now w) due) (removeAt k (pending w))
                        (alerts w) (canvas w) (stoppedTracks w))
  | None => None
  end.

(** What can happen next: a click on a control, or a pending callback runs. *)
Inductive Event : Set :=
| ClickCoin
| ClickShutter
| ClickFilter (filter : FilterType)
| ClickReshoot
| Fire (k : nat) (b : Browser).

(** A click reaches its handler only if the control is on the screen the
    component currently returns (and, for the shutter, not [disabled]). *)
Definition step (ev : Event) (w : World) : option World :=
  match ev with
  | ClickCoin =>
      if SessionPhase_eqb (phase (app w)) Intro
      then Some (exec initializePhotoBooth w) else None
  | ClickShutter =>
      if SessionPhase_eqb (phase (app w)) Live && negb (shutterDisabled (app w))
      then Some (exec handlePhotoCapture w) else None
  | ClickFilter filter =>
      if SessionPhase_eqb (phase (app w)) Live
      then Some (exec (setCurrentFilter filter) w) else None
  | ClickReshoot =>
      if SessionPhase_eqb (phase (app w)) Reviewing
      then Some (exec resetPhotoBooth w) else None
  | Fire k b =>
      match dequeue k w with
      | Some (cb, w') => Some (exec (runCallback cb b) w')
      | None => None
      end
  end.

Fixpoint run (evs : list Event) (w : World) : option World :=
  match evs with
  | [] => Some w
  | ev :: rest =>
      match step ev w with
      | Some w' => run rest w'
      | None => None
      end
  end.

Definition reachable (w : World) : Prop :=
  exists evs, run evs initialWorld = Some w.

(* ===================================================================== *)
(** ** Composite renderer (page.tsx lines 232-300) *)
(* ===================================================================== *)

Module Strip.

Definition STRIP_WIDTH : Z := 260.
Definition STRIP_HEIGHT : Z := 650.
Definition PHOTO_WIDTH : Z := 220.
Definition PHOTO_HEIGHT : Z := 165.
Definition MARGIN : Z := 20.
Definition PHOTO_SPACING : Z := 20.

(** The [Image] object that iteration [index] of the [forEach] creates. *)
Record Image : Set := mkImage {
  index : nat;
  src : string
}.

(** The calls made on the strip canvas and its context, in program order. *)
Inductive Op : Set :=
| SetWidth (w : Z)
| SetHeight (h : Z)
| FillStyleLinearGradient (x0 y0 x1 y1 : Z) (stops : list (Z * string))
| FillStyle (color : string)
| StrokeStyle (color : string)
| LineWidth (n : Z)
| ShadowColor (color : string)
| ShadowBlur (n : Z)
| ShadowOffsetX (n : Z)
| ShadowOffsetY (n : Z)
| FillRect (x y w h : Z)
| StrokeRect (x y w h : Z)
| DrawImage (img : Image) (x y w h : Z)
| Font (font : string)
| TextAlign (align : string)
| FillText (text : string) (x y : Z).

(** One run of [createPhotoStrip]: what has been drawn so far, the local
    [loadedCount], and the images whose [onload] has not fired yet. *)
Record Rendering : Set := mkRendering {
  ops : list Op;
  loadedCount : nat;
  decoding : list Image
}.

(** [capturedPhotos.forEach((photo, index) => ...)] from [index] on: one
    image per photo, [img.src = photo.dataUrl]. *)
Fixpoint forEachPhoto (photos : list CapturedPhoto) (index : nat) : list Image :=
  match photos with
  | [] => []
  | photo :: rest => mkImage index (dataUrl photo) :: forEachPhoto rest (S index)
  end.

(** [createPhotoStrip] up to the end of the [forEach] (lines 232-260, 298).
    [None] is the early [return]. *)
Definition createPhotoStrip (photoStripCanvasRef_current getContext_2d : bool)
           (capturedPhotos : list CapturedPhoto) : option Rendering :=
  if negb photoStripCanvasRef_current
     || negb (List.length capturedPhotos =? 3)%nat then None
  else if negb getContext_2d then None
  else
    Some (mkRendering
      [ SetWidth STRIP_WIDTH; SetHeight STRIP_HEIGHT;
        FillStyleLinearGradient 0 0 0 STRIP_HEIGHT [(0, "#ffffff"); (1, "#f8f9fa")];
        FillRect 0 0 STRIP_WIDTH STRIP_HEIGHT;
        StrokeStyle "#e9ecef"; LineWidth 2;
        StrokeRect 1 1 (STRIP_WIDTH - 2) (STRIP_HEIGHT - 2) ]
      0
      (forEachPhoto capturedPhotos 0)).

Definition captionText (currentDate : string) : string :=
  String.append "📸College Wishlist • " currentDate.

(** [img.onload] (lines 262-297); [currentDate] is what
    [toLocaleDateString] answers when the handler runs. *)
Definition onload (img : Image) (currentDate : string) (r : Rendering) : Rendering :=
  let yPosition := MARGIN + Z.of_nat (index img) * (PHOTO_HEIGHT + PHOTO_SPACING) in
  let photo :=
    [ ShadowColor "rgba(0,0,0,0.15)"; ShadowBlur 8;
      ShadowOffsetX 3; ShadowOffsetY 3;
      FillStyle "#ffffff";
      FillRect (MARGIN - 5) (yPosition - 5) (PHOTO_WIDTH + 10) (PHOTO_HEIGHT + 10);
      DrawImage img MARGIN yPosition PHOTO_WIDTH PHOTO_HEIGHT;
      ShadowColor "transparent"; ShadowBlur 0;
      ShadowOffsetX 0; ShadowOffsetY 0;
      StrokeStyle "#dee2e6"; LineWidth 1;
      StrokeRect MARGIN yPosition PHOTO_WIDTH PHOTO_HEIGHT ] in
  let loadedCount' := S (loadedCount r) in
  let caption :=
    if (loadedCount' =? 3)%nat
    then [ FillStyle "#495057"; Font "italic bold 18px Georgia, serif";
           TextAlign "center";
           FillText (captionText currentDate) (STRIP_WIDTH / 2) (STRIP_HEIGHT - 40) ]
    else [] in
  mkRendering (ops r ++ photo ++ caption) loadedCount' (decoding r).

Definition stillDecoding (i : nat) (img : Image) : bool := (index img =? i)%nat.

(** The image of iteration [i] finishes decoding: it leaves [decoding] and
    its [onload] runs.  [None] if no such image is waiting. *)
Definition decoded (i : nat) (currentDate : string) (r : Rendering)
  : option Rendering :=
  match find (stillDecoding i) (decoding r) with
  | Some img =>
      Some (onload img currentDate
              (mkRendering (ops r) (loadedCount r)
                 (List.filter (fun img' => negb (stillDecoding i img')) (decoding r))))
  | None => None
  end.

(** Decode completions in the given order, each with the date it reads. *)
Fixpoint decodedInOrder (order : list (nat * string)) (r : Rendering)
  : option Rendering :=
  match order with
  | [] => Some r
  | (i, currentDate) :: rest =>
      match decoded i currentDate r with
      | Some r' => decodedInOrder rest r'
      | None => None
      end
  end.

Definition isFillText (op : Op) : bool :=
  match op with
  | FillText _ _ _ => true
  | _ => false
  end.

Definition isDrawImage (op : Op) : bool :=
  match op with
  | DrawImage _ _ _ _ _ => true
  | _ => false
  end.

(** Whether the caption has been drawn. *)
Definition captionDrawn (r : Rendering) : bool := existsb isFillText (ops r).

(** How many images had been drawn when the caption text was drawn;
    [None] if no caption has been drawn. *)
Fixpoint drawsBeforeCaption (l : list Op) : option nat :=
  match l with
  | [] => None
  | FillText _ _ _ :: _ => Some 0%nat
  | op :: rest =>
      match drawsBeforeCaption rest with
      | Some n => Some (if isDrawImage op then S n else n)
      | None => None
      end
  end.

End Strip.

(* ===================================================================== *)
(** ** Bookkeeping used by the invariants *)
(* ===================================================================== *)

Definition isCountdownResume (t : Z * Callback) : bool :=
  match snd t with
  | CountdownResume _ _ => true
  | _ => false
  end.

Definition isShowPhotoStrip (t : Z * Callback) : bool :=
  match snd t with
  | ShowPhotoStrip => true
  | _ => false
  end.

(** Suspended [handlePhotoCapture] calls, and scheduled switches to the
    strip view. *)
Definition inFlight (w : World) : nat :=
  List.length (List.filter isCountdownResume (pending w)).

Definition showScheduled (w : World) : nat :=
  List.length (List.filter isShowPhotoStrip (pending w)).

(** The frame read of [captureCurrentFrame] yields nothing. *)
Definition surfaceUnavailable (env : CaptureEnv) : bool :=
  match videoRef_current env with
  | None => true
  | Some _ => negb (canvasRef_current env) || negb (getContext_2d env)
  end.

(** One whole capture started by a click on the shutter with [n] callbacks
    already pending: the click, then the four resumptions of the handler,
    each of which finds its continuation at the end of the queue. *)
Definition oneCapture (n : nat) (b : Browser) : list Event :=
  [ClickShutter; Fire n b; Fire n b; Fire n b; Fire n b].

(** The state every reachable world satisfies. *)
Definition Inv (w : World) : Prop :=
  let s := app w in
  (List.length (capturedPhotos s) <= 3)%nat /\
  inFlight w = (if isCapturing s then 1%nat else 0%nat) /\
  (showScheduled w <= 1)%nat /\
  (isCapturing s = true ->
     (List.length (capturedPhotos s) < 3)%nat /\ showPhotoStrip s = false /\
     showScheduled w = 0%nat /\ showCurtains s = false /\ isLoading s = false) /\
  (showScheduled w = 1%nat ->
     List.length (capturedPhotos s) = 3%nat /\ showPhotoStrip s = false /\
     showCurtains s = false /\ isLoading s = false) /\
  (showPhotoStrip s = true ->
     List.length (capturedPhotos s) = 3%nat /\
     showCurtains s = false /\ isLoading s = false).

(* ===================================================================== *)
(** ** Sample sessions *)
(* ===================================================================== *)

Definition sampleVideo : Canvas.HTMLVideoElement := Canvas.mkVideo 640 480 7.

Definition sampleStream : MediaStream := mkStream 1 [10%nat; 11%nat].

(** A browser in which the camera works and frames can be read. *)
Definition workingBrowser : Browser :=
  mkBrowser true (fun _ => inr sampleStream) false Played
            (mkCaptureEnv (Some sampleVideo) true true "data:image/jpeg;base64,AAAA").

(** A browser in which every [getUserMedia] call is rejected. *)
Definition deniedBrowser : Browser :=
  mkBrowser true (fun _ => inl (JsError "Permission denied")) false Played
            (mkCaptureEnv None false false EmptyString).

(** A browser in which the camera works but the drawing surface is gone
    when the frame is read. *)
Definition noSurfaceBrowser : Browser :=
  mkBrowser true (fun _ => inr sampleStream) false Played
            (mkCaptureEnv (Some sampleVideo) false false EmptyString).

Definition worldAfter (evs : list Event) : World :=
  match run evs initialWorld with
  | Some w => w
  | None => initialWorld
  end.

(** Coin inserted, curtains opened, camera acquired: the live view. *)
Definition toLive : list Event :=
  [ClickCoin; Fire 0 workingBrowser; Fire 0 workingBrowser].

(** Coin inserted and curtains opened: waiting for the camera. *)
Definition toAwaitingDevice : list Event :=
  [ClickCoin; Fire 0 deniedBrowser].

Definition threeCaptures : list Event :=
  toLive ++ oneCapture 0 workingBrowser ++ oneCapture 0 workingBrowser
         ++ oneCapture 0 workingBrowser.

Definition toReviewing : list Event :=
  threeCaptures ++ [Fire 0 workingBrowser].

Definition samplePhotos : list CapturedPhoto :=
  [mkPhoto "data:a" 6000; mkPhoto "data:b" 10000; mkPhoto "data:c" 14000].

(** The message the [catch] block of [requestCameraAccess] shows for the
    rejection value of the last configuration tried. *)
Definition acquisitionErrorMessage (lastError : JsValue) : string :=
  match lastError with
  | JsError message => message
  | JsOther true => "Unknown camera error"
  | JsOther false => "Could not access camera"
  end.

(* ===================================================================== *)
(** ** The rest of the component *)
(* ===================================================================== *)

(** The cleanup of the effect of lines 150-156 as React runs it when the
    component unmounts: the tracks of the stream held then are stopped. *)
Definition unmount : M unit :=
  fun w =>
    let released := match stream (app w) with
                    | Some held => getTracks held
                    | None => []
                    end in
    (tt, mkWorld (app w) (now w) (pending w) (alerts w) (canvas w)
                 (stoppedTracks w ++ released)).

(** How far the session has come: the intro and the loading screen are
    passed once. *)
Definition phaseRank (p : SessionPhase) : nat :=
  match p with
  | Intro => 0
  | AwaitingDevice => 1
  | Live | Reviewing => 2
  end.

(** The effect of lines 302-306, which React runs after a render in which
    one of its dependencies changed: [Some] of the delay and of the stills
    the scheduled [createPhotoStrip] closes over when it calls
    [setTimeout], [None] when it does nothing. *)
Definition photoStripEffect (s : AppState) : option (Z * list CapturedPhoto) :=
  if showPhotoStrip s && (List.length (capturedPhotos s) =? 3)%nat
  then Some (100, capturedPhotos s)
  else None.

(** A number in a template literal: its decimal digits. *)
Definition numberToString (z : Z) : string :=
  NilZero.string_of_int (Z.to_int z).

(** The link [downloadStrip] creates and clicks. *)
Record DownloadLink : Set := mkDownloadLink {
  download : string;
  href : string
}.

(** [downloadStrip] (lines 308-315).  The argument is what
    [photoStripCanvasRef.current.toDataURL("image/jpeg", 0.9)] gives, or
    [None] when the ref is not attached; the result is the link that is
    clicked, or [None] for the early [return]. *)
Definition downloadStrip (photoStripCanvasRef_current : option string)
  : M (option DownloadLink) :=
  match photoStripCanvasRef_current with
  | None => ret None
  | Some jpeg =>
      t <- Date_now ;;
      ret (Some (mkDownloadLink
                   (String.concat EmptyString
                      ["college-wishlist-photos-"; numberToString t; ".jpg"])
                   jpeg))
  end.

(** The line of text under the shutter (lines 520-526): each
    [{condition && "text"}] contributes its text when the condition holds. *)
Definition statusText (s : AppState) : list string :=
  let n := List.length (capturedPhotos s) in
  (if (n =? 0)%nat then ["Click to take your first photo"] else [])
  ++ (if (n =? 1)%nat then ["Great! Take 2 more photos"] else [])
  ++ (if (n =? 2)%nat then ["One more photo to go!"] else [])
  ++ (if (n =? 3)%nat then ["All photos taken!"] else []).

(** The rectangle a strip call paints, if it paints one. *)
Definition rectOf (op : Strip.Op) : option (Z * Z * Z * Z) :=
  match op with
  | Strip.FillRect x y w h
  | Strip.StrokeRect x y w h
  | Strip.DrawImage _ x y w h => Some (x, y, w, h)
  | _ => None
  end.

Definition insideStrip (rect : Z * Z * Z * Z) : bool :=
  let '(x, y, w, h) := rect in
  (0 <=? x)%Z && (0 <=? y)%Z
  && (x + w <=? Strip.STRIP_WIDTH)%Z && (y + h <=? Strip.STRIP_HEIGHT)%Z.

(** A whole session of three captures from the live view with [n]
    callbacks pending, followed by the scheduled switch to the strip. *)
Definition threeCapturesThenStrip (n : nat) (b : Browser) : list Event :=
  oneCapture n b ++ oneCapture n b ++ oneCapture n b ++ [Fire n b].

(** A browser in which only the second configuration yields a stream. *)
Definition secondConfigBrowser : Browser :=
  mkBrowser true
            (fun config => match config with
                           | IdealFrontFacing => inl (JsError "OverconstrainedError")
                           | VideoOnly => inr sampleStream
                           | Fixed640x480 => inl (JsError "not tried")
                           end)
            false Played
            (mkCaptureEnv (Some sampleVideo) true true "data:image/jpeg;base64,AAAA").

(** A browser without [navigator.mediaDevices.getUserMedia]. *)
Definition unsupportedBrowser : Browser :=
  mkBrowser false (fun _ => inl (JsOther false)) false Played
            (mkCaptureEnv None false false EmptyString).

(** Every stream the component holds at some point of a run: the one held
    at the start and the one held after each step. *)
Fixpoint streamsHeld (evs : list Event) (w : World) : list MediaStream :=
  match stream (app w) with
  | Some held => [held]
  | None => []
  end
  ++ match evs with
     | [] => []
     | ev :: rest =>
         match step ev w with
         | Some w1 => streamsHeld rest w1
         | None => []
         end
     end.

(** Where the renderer may paint: an image in its box by index, a
    rectangle within the canvas, the caption at its fixed place. *)
Definition wellPlaced (op : Strip.Op) : Prop :=
  match op with
  | Strip.DrawImage img x y w h =>
      (Strip.index img < 3)%nat /\
      x = 20 /\ y = 20 + Z.of_nat (Strip.index img) * 185 /\ w = 220 /\ h = 165
  | Strip.FillRect x y w h | Strip.StrokeRect x y w h =>
      insideStrip (x, y, w, h) = true
  | Strip.FillText _ x y => x = 130 /\ y = 610
  | _ => True
  end.

(** The rendering [createPhotoStrip] starts for the sample stills, and
    where it stands after the given decode completions. *)
Definition sampleRendering : Strip.Rendering :=
  match Strip.createPhotoStrip true true samplePhotos with
  | Some r => r
  | None => Strip.mkRendering [] 0 []
  end.

Definition renderingAfter (order : list (nat * string)) : Strip.Rendering :=
  match Strip.decodedInOrder order sampleRendering with
  | Some r => r
  | None => sampleRendering
  end.

(* ===================================================================== *)
(** * Properties *)
(* ===================================================================== *)

(** ** Filter catalog *)

(** Every filter identifier has an entry, so the empty-string fallback of
    [captureCurrentFrame] is never taken. *)
Lemma selectedFilterOf_entry (currentFilter : FilterType) :
  exists entry,
    In entry availableFilters /\ name entry = currentFilter /\
    selectedFilterOf currentFilter = css entry /\ css entry <> EmptyString.
Proof.
  destruct currentFilter;
    (eexists; split; [| split; [| split; [reflexivity |]]];
     [unfold availableFilters; simpl; eauto 10 | reflexivity | discriminate]).
Qed.

(** ** Capture rasterization *)

Lemma captureCurrentFrame_unavailable currentFilter env canvas :
  surfaceUnavailable env = true ->
  captureCurrentFrame currentFilter env canvas = (None, canvas).
Proof.
  unfold surfaceUnavailable, captureCurrentFrame.
  destruct (videoRef_current env); [| reflexivity].
  destruct (canvasRef_current env); [| reflexivity].
  destruct (getContext_2d env); [discriminate | reflexivity].
Qed.

Lemma captureCurrentFrame_available currentFilter env canvas :
  surfaceUnavailable env = false ->
  fst (captureCurrentFrame currentFilter env canvas) = Some (toDataURL env).
Proof.
  unfold surfaceUnavailable, captureCurrentFrame.
  destruct (videoRef_current env); [| discriminate].
  destruct (canvasRef_current env); [| discriminate].
  destruct (getContext_2d env); [reflexivity | discriminate].
Qed.

(** What [captureCurrentFrame] does with the filter it closes over.  When
    the video element, the canvas and its context are there,
    [captureCurrentFrame] sizes the canvas to the video's native
    resolution and leaves exactly one draw on its bitmap: the video frame,
    drawn at [x = -width] under the transform [scale(-1, 1)], which puts
    source column [col] on bitmap column [width - 1 - col] (a horizontal
    mirror, rows unchanged), and under the CSS filter of the catalog entry
    of the [currentFilter] the callback holds.  When it returns the context
    is back in its default state: filter ["none"], identity transform,
    empty save stack, so any later draw on that canvas is unfiltered. *)
Lemma captureCurrentFrame_mirrors_and_clears_filter
        (currentFilter : FilterType) (video : Canvas.HTMLVideoElement)
        (jpeg : string) (canvas0 : Canvas.HTMLCanvasElement) :
  let env := mkCaptureEnv (Some video) true true jpeg in
  let result := captureCurrentFrame currentFilter env canvas0 in
  let c := snd result in
  let shot := Canvas.mkDraw video (- Canvas.videoWidth video) 0
                (Canvas.mkDrawingState (selectedFilterOf currentFilter)
                                       (Canvas.mkTransform (-1) 1 0 0)) in
  fst result = Some jpeg /\
  Canvas.width c = Canvas.videoWidth video /\
  Canvas.height c = Canvas.videoHeight video /\
  Canvas.bitmap c = [shot] /\
  (exists entry, In entry availableFilters /\ name entry = currentFilter /\
                 Canvas.filter (Canvas.drawnWith shot) = css entry) /\
  (forall col, Canvas.bitmapColumn shot col = Canvas.videoWidth video - 1 - col) /\
  (forall row, Canvas.deviceY shot row = row) /\
  Canvas.state c = Canvas.defaultState /\
  Canvas.stack c = [] /\
  (forall v x y,
      Canvas.bitmap (Canvas.drawImage v x y c)
      = [shot; Canvas.mkDraw v x y (Canvas.mkDrawingState "none" Canvas.identity)]).
Proof.
  cbv zeta. unfold captureCurrentFrame. cbn -[Z.mul Z.add Z.opp Z.min Z.sub].
  repeat split; try reflexivity.
  - destruct (selectedFilterOf_entry currentFilter) as (entry & Hin & Hn & Hc & _).
    exists entry. auto.
  - intros col. unfold Canvas.bitmapColumn, Canvas.deviceX.
    cbn -[Z.mul Z.add Z.opp Z.min Z.sub]. lia.
  - intros row. unfold Canvas.deviceY.
    cbn -[Z.mul Z.add Z.opp Z.min Z.sub]. lia.
Qed.

(** ** Re-entrancy guard *)

(** C2. [handlePhotoCapture] entered while [isCapturing] is set returns at
    its first line: the world is returned as it was, so the still count is
    the same and no continuation or timer has been queued; the shutter
    button, being [disabled], does not even deliver the click. *)
Theorem C2_capture_while_capturing_is_dropped (w : World) :
  isCapturing (app w) = true ->
  handlePhotoCapture w = (tt, w) /\
  List.length (capturedPhotos (app (exec handlePhotoCapture w)))
  = List.length (capturedPhotos (app w)) /\
  pending (exec handlePhotoCapture w) = pending w /\
  inFlight (exec handlePhotoCapture w) = inFlight w /\
  step ClickShutter w = None.
Proof.
  intros Hc.
  assert (Hrej : handlePhotoCapture w = (tt, w)).
  { unfold handlePhotoCapture, bind, getApp. rewrite Hc. reflexivity. }
  unfold exec. rewrite Hrej. cbn [snd].
  repeat split; try reflexivity.
  unfold step, shutterDisabled. rewrite Hc. cbn.
  rewrite andb_false_r. reflexivity.
Qed.

Lemma C2_capture_while_capturing_is_dropped_witness :
  isCapturing (app (worldAfter (toLive ++ [ClickShutter]))) = true /\
  handlePhotoCapture (worldAfter (toLive ++ [ClickShutter]))
  = (tt, worldAfter (toLive ++ [ClickShutter])) /\
  step ClickShutter (worldAfter (toLive ++ [ClickShutter])) = None.
Proof.
  assert (Hc : isCapturing (app (worldAfter (toLive ++ [ClickShutter]))) = true)
    by (vm_compute; reflexivity).
  destruct (C2_capture_while_capturing_is_dropped
              (worldAfter (toLive ++ [ClickShutter])) Hc)
    as (Hrej & _ & _ & _ & Hstep).
  exact (conj Hc (conj Hrej Hstep)).
Defined.

(** ** Reset *)

(** C4. After [resetPhotoBooth], from any state: no stills,
    [showPhotoStrip] false, and the stream, its tracks (none newly
    stopped), the capture flag, the filter, the queue of callbacks, the
    alerts and the capture canvas exactly as before.  The phase afterwards
    is [Live] unless the session was still in [Intro] or [AwaitingDevice];
    in particular it is [Live] whenever the Reshoot click is delivered. *)
Theorem C4_reset_clears_capture_state_only (w : World) :
  let w' := exec resetPhotoBooth w in
  capturedPhotos (app w') = [] /\
  showPhotoStrip (app w') = false /\
  countdown (app w') = None /\
  stream (app w') = stream (app w) /\
  stoppedTracks w' = stoppedTracks w /\
  isCapturing (app w') = isCapturing (app w) /\
  currentFilter (app w') = currentFilter (app w) /\
  isLoading (app w') = isLoading (app w) /\
  showCurtains (app w') = showCurtains (app w) /\
  pending w' = pending w /\ alerts w' = alerts w /\ canvas w' = canvas w /\
  phase (app w') = match phase (app w) with
                   | Intro => Intro
                   | AwaitingDevice => AwaitingDevice
                   | Live | Reviewing => Live
                   end /\
  (forall w'', step ClickReshoot w = Some w'' ->
               w'' = w' /\ phase (app w) = Reviewing /\ phase (app w'') = Live).
Proof.
  cbv zeta. repeat split; try reflexivity.
  - unfold phase. cbn.
    destruct (showCurtains (app w)), (isLoading (app w)),
      (showPhotoStrip (app w)); reflexivity.
  - unfold step in H. destruct (SessionPhase_eqb _ _); congruence.
  - unfold step in H.
    destruct (phase (app w)) eqn:Hp; cbn in H; congruence.
  - unfold step in H.
    destruct (phase (app w)) eqn:Hp; cbn in H; try discriminate.
    injection H as <-. unfold phase in *. cbn.
    destruct (showCurtains (app w)), (isLoading (app w)),
      (showPhotoStrip (app w)); try discriminate; reflexivity.
Qed.

Lemma C4_reset_clears_capture_state_only_witness :
  step ClickReshoot (worldAfter toReviewing)
  = Some (exec resetPhotoBooth (worldAfter toReviewing)) /\
  capturedPhotos (app (exec resetPhotoBooth (worldAfter toReviewing))) = [] /\
  phase (app (exec resetPhotoBooth (worldAfter toReviewing))) = Live /\
  stream (app (exec resetPhotoBooth (worldAfter toReviewing))) = Some sampleStream /\
  stoppedTracks (exec resetPhotoBooth (worldAfter toReviewing)) = [].
Proof.
  pose proof (C4_reset_clears_capture_state_only (worldAfter toReviewing)) as H.
  cbv zeta in H.
  destruct H as (Hp & _ & _ & Hs & Ht & _ & _ & _ & _ & _ & _ & _ & _ & Hstep).
  assert (Hd : step ClickReshoot (worldAfter toReviewing)
               = Some (exec resetPhotoBooth (worldAfter toReviewing)))
    by (vm_compute; reflexivity).
  destruct (Hstep _ Hd) as (_ & _ & Hl).
  refine (conj Hd (conj Hp (conj Hl (conj _ _)))).
  - rewrite Hs. vm_compute. reflexivity.
  - rewrite Ht. vm_compute. reflexivity.
Defined.

(** ** Device acquisition failure *)

Lemma tryConfigs_all_rejected gum configs lastError :
  (forall config, In config configs -> exists error, gum config = inl error) ->
  tryConfigs gum configs lastError
  = (None, match rev configs with
           | [] => lastError
           | config :: _ => match gum config with
                            | inl error => Some error
                            | inr _ => lastError
                            end
           end).
Proof.
  revert lastError. induction configs as [| config rest IH]; intros lastError Hall.
  - reflexivity.
  - cbn [tryConfigs].
    destruct (Hall config (or_introl eq_refl)) as (error & Herr). rewrite Herr.
    rewrite IH by (intros c Hc; apply Hall; right; exact Hc).
    cbn [rev]. destruct (rev rest) as [| c tl] eqn:Hrev.
    + cbn. rewrite Herr. reflexivity.
    + cbn. destruct (Hall c) as (e' & He').
      { right. apply in_rev. rewrite Hrev. left. reflexivity. }
      rewrite He'. reflexivity.
Qed.

(** C8, counterexample to "the phase remains [AwaitingDevice]".  With every
    fallback configuration rejected, the session is in [AwaitingDevice]
    before the failure is handled and in [Live] after it: the loading
    screen is no longer shown. *)
Lemma C8_failure_exits_awaiting_device :
  phase (app (worldAfter toAwaitingDevice)) = AwaitingDevice /\
  (forall config,
      getUserMedia deniedBrowser config = inl (JsError "Permission denied")) /\
  step (Fire 0 deniedBrowser) (worldAfter toAwaitingDevice)
  = Some (worldAfter (toAwaitingDevice ++ [Fire 0 deniedBrowser])) /\
  isLoading (app (worldAfter (toAwaitingDevice ++ [Fire 0 deniedBrowser]))) = false /\
  phase (app (worldAfter (toAwaitingDevice ++ [Fire 0 deniedBrowser]))) = Live /\
  phase (app (worldAfter (toAwaitingDevice ++ [Fire 0 deniedBrowser])))
  <> AwaitingDevice.
Proof.
  refine (conj _ (conj _ (conj _ (conj _ (conj _ _))))).
  - vm_compute. reflexivity.
  - intros config. reflexivity.
  - vm_compute. reflexivity.
  - vm_compute. reflexivity.
  - vm_compute. reflexivity.
  - vm_compute. discriminate.
Qed.

(** C8 (amended).  When every fallback configuration is rejected,
    [requestCameraAccess] shows one alert, whose message is taken from the
    rejection of the last configuration, and sets [isLoading] to false:
    the session does not stay in [AwaitingDevice] but moves on to the live
    view, with [stream] as it was (none acquired), no callback queued and
    the capture state untouched. *)
Theorem C8_acquisition_failure_alerts_and_ends_loading (w : World) (b : Browser) :
  (forall config, In config cameraConfigs ->
                  exists error, getUserMedia b config = inl error) ->
  let w' := exec (requestCameraAccess_afterLoop b) w in
  (exists lastError,
      getUserMedia b Fixed640x480 = inl lastError /\
      alerts w' = alerts w ++ [cameraErrorAlert (acquisitionErrorMessage lastError)]) /\
  isLoading (app w') = false /\
  phase (app w') <> AwaitingDevice /\
  (phase (app w) = AwaitingDevice -> showPhotoStrip (app w) = false ->
   phase (app w') = Live) /\
  stream (app w') = stream (app w) /\
  stoppedTracks w' = stoppedTracks w /\
  pending w' = pending w /\
  capturedPhotos (app w') = capturedPhotos (app w) /\
  isCapturing (app w') = isCapturing (app w) /\
  showPhotoStrip (app w') = showPhotoStrip (app w).
Proof.
  intros Hall. cbv zeta.
  unfold requestCameraAccess_afterLoop.
  rewrite (tryConfigs_all_rejected _ _ None Hall).
  destruct (Hall Fixed640x480) as (lastError & Hlast).
  { unfold cameraConfigs. cbn. auto. }
  change (rev cameraConfigs) with [Fixed640x480; VideoOnly; IdealFrontFacing].
  cbv iota. rewrite Hlast.
  assert (Hshape : forall error, exec (requestCameraAccess_catch error) w
            = mkWorld (withIsLoading false (app w)) (now w) (pending w)
                      (alerts w ++ [cameraErrorAlert
                                      match error with
                                      | JsError message => message
                                      | JsOther _ => "Unknown camera error"
                                      end])
                      (canvas w) (stoppedTracks w)) by reflexivity.
  rewrite Hshape. cbn [app alerts pending stoppedTracks withIsLoading isLoading
                       stream capturedPhotos isCapturing showPhotoStrip].
  refine (conj _ (conj eq_refl (conj _ (conj _ _)))).
  - exists lastError. split; [reflexivity |].
    destruct lastError as [message | [|]]; reflexivity.
  - unfold phase. cbn.
    destruct (showCurtains (app w)), (showPhotoStrip (app w)); discriminate.
  - unfold phase. cbn. intros Hp Hs. rewrite Hs in *.
    destruct (showCurtains (app w)); [discriminate | reflexivity].
  - repeat split; reflexivity.
Qed.

Lemma C8_acquisition_failure_alerts_and_ends_loading_witness :
  alerts (exec (requestCameraAccess_afterLoop deniedBrowser)
               (worldAfter toAwaitingDevice))
  = [cameraErrorAlert "Permission denied"] /\
  phase (app (exec (requestCameraAccess_afterLoop deniedBrowser)
                   (worldAfter toAwaitingDevice))) = Live.
Proof.
  assert (Hall : forall config, In config cameraConfigs ->
            exists error, getUserMedia deniedBrowser config = inl error).
  { intros config _. exists (JsError "Permission denied"). reflexivity. }
  destruct (C8_acquisition_failure_alerts_and_ends_loading
              (worldAfter toAwaitingDevice) deniedBrowser Hall)
    as ((lastError & Hlast & Halert) & _ & _ & Hlive & _).
  split.
  - rewrite Halert. injection Hlast as <-. vm_compute. reflexivity.
  - apply Hlive; vm_compute; reflexivity.
Defined.

(** ** One capture, start to end *)

Lemma removeAt_last {A} (l : list A) (x : A) :
  removeAt (List.length l) (l ++ [x]) = l.
Proof.
  unfold removeAt.
  rewrite firstn_app, Nat.sub_diag, firstn_all. cbn [firstn].
  rewrite skipn_all2 by (rewrite length_app; cbn; lia).
  rewrite !app_nil_r. reflexivity.
Qed.

(** Running the callback that was queued last. *)
Lemma step_fire_last s n p al c st due cb b :
  step (Fire (List.length p) b) (mkWorld s n (p ++ [(due, cb)]) al c st)
  = Some (exec (runCallback cb b) (mkWorld s (Z.max n due) p al c st)).
Proof.
  unfold step, dequeue. cbn [pending].
  rewrite nth_error_app2 by lia. rewrite Nat.sub_diag. cbn [nth_error].
  rewrite removeAt_last. reflexivity.
Qed.

(** The shutter click is delivered exactly in the live view, with no capture
    in flight and fewer than three stills. *)
Lemma shutter_accepted w :
  step ClickShutter w <> None <->
  showCurtains (app w) = false /\ isLoading (app w) = false /\
  showPhotoStrip (app w) = false /\ isCapturing (app w) = false /\
  (List.length (capturedPhotos (app w)) < 3)%nat.
Proof.
  unfold step, phase, shutterDisabled.
  destruct (Nat.leb_spec 3 (List.length (capturedPhotos (app w)))) as [Hge | Hlt];
    destruct (showCurtains (app w)), (isLoading (app w)),
      (showPhotoStrip (app w)), (isCapturing (app w));
    cbn; split;
    try (intros Hx; exfalso; apply Hx; reflexivity);
    try (intros (? & ? & ? & ? & ?); (discriminate || lia));
    try (intros _; repeat split; (reflexivity || lia));
    try (intros _; discriminate).
Qed.

(** What the last resumption of [handlePhotoCapture] does when the frame
    cannot be read: the countdown display is cleared, the capture flag is
    cleared, and nothing else changes. *)
Lemma finish_unavailable closureFilter env w :
  surfaceUnavailable env = true ->
  exec (handlePhotoCapture_finish closureFilter env) w
  = mkWorld (withIsCapturing false (withCountdown None (app w)))
            (now w) (pending w) (alerts w) (canvas w) (stoppedTracks w).
Proof.
  intros Hu. unfold exec, handlePhotoCapture_finish, bind, captureCurrentFrameM.
  cbn [setCountdown modifyApp canvas app now pending alerts stoppedTracks].
  rewrite (captureCurrentFrame_unavailable _ _ _ Hu).
  reflexivity.
Qed.

(** A whole capture whose frame read fails, run without anything else in
    between: four seconds pass, the countdown display ends empty, and the
    rest of the world is as it was before the click. *)
Lemma oneCapture_unavailable w b :
  step ClickShutter w <> None ->
  surfaceUnavailable (captureEnv b) = true ->
  run (oneCapture (List.length (pending w)) b) w
  = Some (mkWorld (withCountdown None (app w)) (now w + 4000) (pending w)
                  (alerts w) (canvas w) (stoppedTracks w)).
Proof.
  intros Hacc Hu. apply shutter_accepted in Hacc.
  destruct Hacc as (Hcur & Hload & Hstrip & Hcap & Hlen).
  destruct w as [s n p al c st]. cbn [app pending now alerts canvas stoppedTracks] in *.
  unfold oneCapture. cbn [run].
  assert (Hclick : step ClickShutter (mkWorld s n p al c st)
            = Some (mkWorld (withCountdown (Some "3...") (withIsCapturing true s))
                            n (p ++ [(n + 1000, CountdownResume 0 (currentFilter s))])
                            al c st)).
  { unfold step, phase, shutterDisabled, exec, handlePhotoCapture, bind, getApp.
    cbn [app]. rewrite Hcur, Hload, Hstrip, Hcap.
    destruct (Nat.leb_spec 3 (List.length (capturedPhotos s))); [lia |].
    reflexivity. }
  rewrite Hclick, step_fire_last.
  cbn -[Z.add Z.max step]. rewrite step_fire_last.
  cbn -[Z.add Z.max step]. rewrite step_fire_last.
  cbn -[Z.add Z.max step]. rewrite step_fire_last.
  cbn [runCallback handlePhotoCapture_loop nth_error countdownSequence].
  rewrite (finish_unavailable _ _ _ Hu).
  cbn -[Z.add Z.max]. destruct s. cbn in *. subst.
  f_equal. f_equal. lia.
Qed.

(** C9. A capture whose frame read yields nothing (no video element, no
    canvas, or no 2D context) ends without appending a still, without an
    alert and without scheduling anything: the last resumption of
    [handlePhotoCapture] changes only the countdown display and the capture
    flag, whatever state it resumes in; and a whole such capture, from the
    accepted click to its end, leaves the stills, the phase, the alerts,
    the pending callbacks, the stream and the canvas as they were. *)
Theorem C9_unreadable_frame_is_silent_noop (w : World) (b : Browser)
        (closureFilter : FilterType) :
  surfaceUnavailable (captureEnv b) = true ->
  let w1 := exec (handlePhotoCapture_finish closureFilter (captureEnv b)) w in
  (fst (captureCurrentFrame closureFilter (captureEnv b) (canvas w)) = None /\
   capturedPhotos (app w1) = capturedPhotos (app w) /\
   phase (app w1) = phase (app w) /\
   alerts w1 = alerts w /\ pending w1 = pending w /\
   stream (app w1) = stream (app w) /\ canvas w1 = canvas w /\
   isCapturing (app w1) = false) /\
  (step ClickShutter w <> None ->
   exists w', run (oneCapture (List.length (pending w)) b) w = Some w' /\
              capturedPhotos (app w') = capturedPhotos (app w) /\
              phase (app w') = phase (app w) /\
              alerts w' = alerts w /\ pending w' = pending w /\
              stream (app w') = stream (app w) /\ canvas w' = canvas w /\
              isCapturing (app w') = false /\ inFlight w' = inFlight w).
Proof.
  intros Hu. cbv zeta. split.
  - rewrite (finish_unavailable _ _ _ Hu).
    rewrite (captureCurrentFrame_unavailable _ _ _ Hu).
    repeat split; reflexivity.
  - intros Hacc. eexists. split; [apply oneCapture_unavailable; assumption |].
    apply shutter_accepted in Hacc. destruct Hacc as (_ & _ & _ & Hcap & _).
    cbn [app capturedPhotos withCountdown alerts pending stream canvas isCapturing].
    repeat split; try reflexivity. exact Hcap.
Qed.

Lemma C9_unreadable_frame_is_silent_noop_witness :
  exists w', run (oneCapture 0 noSurfaceBrowser) (worldAfter toLive) = Some w' /\
             capturedPhotos (app w') = [] /\
             phase (app w') = Live /\
             alerts w' = [].
Proof.
  assert (Hu : surfaceUnavailable (captureEnv noSurfaceBrowser) = true)
    by (vm_compute; reflexivity).
  assert (Hacc : step ClickShutter (worldAfter toLive) <> None)
    by (vm_compute; discriminate).
  destruct (C9_unreadable_frame_is_silent_noop
              (worldAfter toLive) noSurfaceBrowser F2000s Hu)
    as (_ & Hrun).
  destruct (Hrun Hacc) as (w' & Hw' & Hphotos & Hphase & Halerts & _).
  exists w'. refine (conj _ (conj _ (conj _ _))).
  - exact Hw'.
  - rewrite Hphotos. vm_compute. reflexivity.
  - rewrite Hphase. vm_compute. reflexivity.
  - rewrite Halerts. vm_compute. reflexivity.
Defined.

Lemma run_app evs1 evs2 w :
  run (evs1 ++ evs2) w
  = match run evs1 w with
    | Some w' => run evs2 w'
    | None => None
    end.
Proof.
  revert w. induction evs1 as [| ev rest IH]; intros w; cbn [run List.app].
  - reflexivity.
  - destruct (step ev w); [apply IH | reflexivity].
Qed.

(** The last statement of [handlePhotoCapture] runs on both branches of
    [if (photoData)]. *)
Lemma finish_clears_isCapturing closureFilter env w :
  isCapturing (app (exec (handlePhotoCapture_finish closureFilter env) w)) = false.
Proof.
  unfold exec, handlePhotoCapture_finish, bind, captureCurrentFrameM.
  cbn [setCountdown modifyApp canvas app now pending alerts stoppedTracks].
  destruct (captureCurrentFrame closureFilter env (canvas w)) as [photoData c].
  destruct (isTruthy photoData); [| reflexivity].
  unfold setCapturedPhotos, appendPhoto, bind, getApp, Date_now. cbn [app now].
  destruct (List.length _ =? 3)%nat; reflexivity.
Qed.

(** The entry of [handlePhotoCapture] is the loop of lines 207-210 taken at
    index 0, whatever the frame read would give at that moment. *)
Lemma handlePhotoCapture_enters_loop env w :
  isCapturing (app w) = false ->
  (List.length (capturedPhotos (app w)) < 3)%nat ->
  handlePhotoCapture w
  = (setIsCapturing true ;;
     handlePhotoCapture_loop 0 (currentFilter (app w)) env) w.
Proof.
  intros Hcap Hlen.
  unfold handlePhotoCapture, bind, getApp. rewrite Hcap.
  destruct (Nat.leb_spec 3 (List.length (capturedPhotos (app w)))); [lia |].
  reflexivity.
Qed.

Lemma click_starts_capture w :
  step ClickShutter w <> None ->
  step ClickShutter w
  = Some (mkWorld (withCountdown (Some "3...") (withIsCapturing true (app w)))
                  (now w)
                  (pending w ++ [(now w + 1000,
                                  CountdownResume 0 (currentFilter (app w)))])
                  (alerts w) (canvas w) (stoppedTracks w)).
Proof.
  intros Hacc. apply shutter_accepted in Hacc.
  destruct Hacc as (Hcur & Hload & Hstrip & Hcap & Hlen).
  unfold step, phase, shutterDisabled, exec, handlePhotoCapture, bind, getApp.
  rewrite Hcur, Hload, Hstrip, Hcap.
  destruct (Nat.leb_spec 3 (List.length (capturedPhotos (app w)))); [lia |].
  reflexivity.
Qed.

(** C10. [handlePhotoCapture] ends with [setIsCapturing(false)] on both
    branches of [if (photoData)], so the capture flag is clear after every
    completion, whatever the frame read gave.  After a completion whose
    frame read gave nothing, in the live view with fewer than three stills,
    the next shutter click is delivered and starts a capture; in particular
    a whole failed capture followed by a click starts a new capture. *)
Theorem C10_capture_flag_cleared_on_every_path (w : World) (b : Browser)
        (closureFilter : FilterType) :
  let w1 := exec (handlePhotoCapture_finish closureFilter (captureEnv b)) w in
  isCapturing (app w1) = false /\
  (surfaceUnavailable (captureEnv b) = true ->
   phase (app w) = Live ->
   (List.length (capturedPhotos (app w)) < 3)%nat ->
   exists w2, step ClickShutter w1 = Some w2 /\
              isCapturing (app w2) = true /\
              pending w2 = pending w
                           ++ [(now w + 1000,
                                CountdownResume 0 (currentFilter (app w)))]) /\
  (surfaceUnavailable (captureEnv b) = true ->
   step ClickShutter w <> None ->
   exists w2, run (oneCapture (List.length (pending w)) b ++ [ClickShutter]) w
              = Some w2 /\
              isCapturing (app w2) = true /\
              capturedPhotos (app w2) = capturedPhotos (app w) /\
              pending w2 = pending w
                           ++ [(now w + 4000 + 1000,
                                CountdownResume 0 (currentFilter (app w)))]).
Proof.
  cbv zeta. split; [apply finish_clears_isCapturing |]. split.
  - intros Hu Hlive Hlen.
    rewrite (finish_unavailable _ _ _ Hu).
    set (w1 := mkWorld _ _ _ _ _ _).
    assert (Hacc : step ClickShutter w1 <> None).
    { apply shutter_accepted. subst w1. cbn.
      unfold phase in Hlive.
      destruct (showCurtains (app w)), (isLoading (app w)),
        (showPhotoStrip (app w)); try discriminate.
      repeat split; try reflexivity. exact Hlen. }
    eexists. split; [apply (click_starts_capture _ Hacc) |].
    subst w1. split; reflexivity.
  - intros Hu Hacc.
    rewrite run_app, (oneCapture_unavailable _ _ Hacc Hu).
    set (w1 := mkWorld _ _ _ _ _ _).
    assert (Hacc1 : step ClickShutter w1 <> None).
    { apply shutter_accepted. apply shutter_accepted in Hacc. exact Hacc. }
    cbn [run]. rewrite (click_starts_capture _ Hacc1).
    eexists. split; [reflexivity |]. subst w1. repeat split; reflexivity.
Qed.

Lemma C10_capture_flag_cleared_on_every_path_witness :
  exists w2,
    run (oneCapture 0 noSurfaceBrowser ++ [ClickShutter]) (worldAfter toLive)
    = Some w2 /\
    isCapturing (app w2) = true /\
    capturedPhotos (app w2) = [] /\
    pending w2 = [(2000 + 4000 + 1000, CountdownResume 0 F2000s)].
Proof.
  assert (Hu : surfaceUnavailable (captureEnv noSurfaceBrowser) = true)
    by (vm_compute; reflexivity).
  assert (Hacc : step ClickShutter (worldAfter toLive) <> None)
    by (vm_compute; discriminate).
  destruct (C10_capture_flag_cleared_on_every_path
              (worldAfter toLive) noSurfaceBrowser F2000s)
    as (_ & _ & Hrun).
  destruct (Hrun Hu Hacc) as (w2 & Hw2 & Hcap & Hphotos & Hpending).
  exists w2. refine (conj Hw2 (conj Hcap (conj _ _))).
  - rewrite Hphotos. vm_compute. reflexivity.
  - rewrite Hpending. vm_compute. reflexivity.
Defined.

(** ** The session invariant *)

Lemma filter_removeAt {A} (q : A -> bool) (l : list A) (k : nat) (x : A) :
  nth_error l k = Some x ->
  List.length (List.filter q l)
  = (List.length (List.filter q (removeAt k l)) + (if q x then 1 else 0))%nat.
Proof.
  intros Hk. unfold removeAt.
  destruct (nth_error_split l k Hk) as (l1 & l2 & -> & <-).
  rewrite firstn_app, Nat.sub_diag, firstn_all. cbn [firstn]. rewrite app_nil_r.
  replace (S (List.length l1)) with (List.length (l1 ++ [x]))
    by (rewrite length_app; cbn; lia).
  replace (l1 ++ x :: l2) with ((l1 ++ [x]) ++ l2)
    by (rewrite <- app_assoc; reflexivity).
  rewrite skipn_app, Nat.sub_diag, skipn_all. cbn [skipn List.app].
  rewrite !filter_app, !length_app. cbn [List.filter].
  destruct (q x); cbn; lia.
Qed.

(** Turn [x = y -> Q] for decidable [x = y] into either [Q] or [x <> y]. *)
Ltac split_implications :=
  repeat match goal with
         | H : @eq nat ?x ?y -> _ |- _ =>
             destruct (Nat.eq_dec x y) as [?He | ?Hne];
             [specialize (H He) | clear H]
         | H : @eq bool ?x ?y -> _ |- _ =>
             destruct (bool_dec x y) as [?He | ?Hne];
             [specialize (H He) | clear H]
         end.

Ltac inv_arith :=
  cbn -[Z.add Z.max Nat.leb Nat.eqb] in *;
  rewrite ?filter_app, ?length_app in *;
  cbn -[Z.add Z.max Nat.leb Nat.eqb] in *;
  repeat split; intros; try congruence; try lia.

Ltac inv_prep HI :=
  destruct HI as (?H & ?H & ?H & ?H & ?H & ?H);
  split_implications;
  repeat match goal with H : _ /\ _ |- _ => destruct H end.

Lemma step_preserves_Inv (ev : Event) (w w' : World) :
  Inv w -> step ev w = Some w' -> Inv w'.
Proof.
  destruct w as [s n p al c st].
  destruct s as [strm cap cd photos flt strip load curt anim].
  unfold Inv, inFlight, showScheduled.
  cbn [app pending capturedPhotos isCapturing showPhotoStrip showCurtains isLoading].
  intros HI Hstep.
  destruct ev as [| | flt' | | k b].
  - unfold step, phase in Hstep. cbn in Hstep.
    destruct curt, load, strip, cap; try discriminate;
      injection Hstep as <-; inv_prep HI; inv_arith.
  - unfold step, phase, shutterDisabled in Hstep. cbn -[Nat.leb] in Hstep.
    destruct curt, load, strip, cap; try discriminate;
      destruct (Nat.leb_spec 3 (List.length photos)) as [Hge | Hlt];
      try discriminate.
    unfold exec, handlePhotoCapture, bind, getApp in Hstep.
    cbn -[Z.add Nat.leb] in Hstep.
    destruct (Nat.leb_spec 3 (List.length photos)); [lia |].
    injection Hstep as <-. inv_prep HI; inv_arith.
  - unfold step, phase in Hstep. cbn in Hstep.
    destruct curt, load, strip, cap; try discriminate;
      injection Hstep as <-; inv_prep HI; inv_arith.
  - unfold step, phase in Hstep. cbn in Hstep.
    destruct curt, load, strip, cap; try discriminate;
      injection Hstep as <-; inv_prep HI; inv_arith.
  - unfold step, dequeue in Hstep. cbn [pending] in Hstep.
    destruct (nth_error p k) as [[due cb] |] eqn:Hk; [| discriminate].
    pose proof (filter_removeAt isCountdownResume _ _ _ Hk) as Hc.
    pose proof (filter_removeAt isShowPhotoStrip _ _ _ Hk) as Hs.
    set (p' := removeAt k p) in *. clearbody p'. clear Hk.
    injection Hstep as <-.
    rewrite Hc, Hs in HI. clear Hc Hs.
    destruct cb as [| | createdAt | i closureFilter |];
      cbn [isCountdownResume isShowPhotoStrip snd] in HI;
      destruct curt, load, strip, cap; inv_prep HI; try lia.
    all: unfold runCallback.
    all: try solve [inv_arith].
    all: try solve [unfold openCurtains, requestCameraAccess;
                    destruct (mediaDevices_getUserMedia b); inv_arith].
    all: try solve [unfold requestCameraAccess_afterLoop;
                    destruct (tryConfigs _ _ _) as [[mediaStream |] lastError];
                    [destruct (videoRef_attached b) |]; inv_arith].
    all: try solve [unfold requestCameraAccess_afterVideo;
                    destruct (videoOutcome b); inv_arith].
    all: unfold handlePhotoCapture_loop;
      destruct i as [| [| [| i]]]; cbn [nth_error countdownSequence];
      try solve [inv_arith].
    all: replace (nth_error (A:=string) [] i) with (@None string)
      by (destruct i; reflexivity).
    all: unfold exec, handlePhotoCapture_finish, bind, captureCurrentFrameM;
      cbn [setCountdown modifyApp canvas app now pending alerts stoppedTracks];
      destruct (captureCurrentFrame closureFilter (captureEnv b) c)
        as [photoData c'];
      destruct (isTruthy photoData); [| solve [inv_arith] ].
    all: unfold setCapturedPhotos, appendPhoto, bind, getApp, Date_now;
      cbn [app now capturedPhotos withCountdown];
      rewrite length_app; cbn [List.length];
      destruct (Nat.eqb_spec (List.length photos + 1) 3); inv_arith.
Qed.

Lemma Inv_initialWorld : Inv initialWorld.
Proof.
  unfold Inv, inFlight, showScheduled. cbn.
  repeat split; intros; try congruence; try lia.
Qed.

Lemma run_preserves_Inv (evs : list Event) (w w' : World) :
  Inv w -> run evs w = Some w' -> Inv w'.
Proof.
  revert w. induction evs as [| ev rest IH]; intros w HI Hrun; cbn [run] in Hrun.
  - injection Hrun as <-. exact HI.
  - destruct (step ev w) as [w1 |] eqn:Hstep; [| discriminate].
    apply (IH w1); [apply (step_preserves_Inv ev w w1 HI Hstep) | exact Hrun].
Qed.

Lemma reachable_Inv (w : World) : reachable w -> Inv w.
Proof.
  intros (evs & Hrun). apply (run_preserves_Inv evs initialWorld w); auto.
  apply Inv_initialWorld.
Qed.

Lemma reachable_step (ev : Event) (w w' : World) :
  reachable w -> step ev w = Some w' -> reachable w'.
Proof.
  intros (evs & Hrun) Hstep. exists (evs ++ [ev]).
  rewrite run_app, Hrun. cbn [run]. rewrite Hstep. reflexivity.
Qed.

(** The guard of [handlePhotoCapture] on the still count. *)
Lemma capture_at_limit_rejected (w : World) :
  (3 <= List.length (capturedPhotos (app w)))%nat ->
  handlePhotoCapture w = (tt, w) /\ step ClickShutter w = None.
Proof.
  intros Hlen.
  assert (Hleb : (3 <=? List.length (capturedPhotos (app w)))%nat = true)
    by (apply Nat.leb_le; exact Hlen).
  split.
  - unfold handlePhotoCapture, bind, getApp. rewrite Hleb, orb_true_r. reflexivity.
  - unfold step, shutterDisabled. rewrite Hleb, orb_true_r. cbn.
    rewrite andb_false_r. reflexivity.
Qed.

(** C1. In every world a session can reach, by any sequence of clicks and
    callbacks, there are at most three stills, and so there are after any
    further step; and whenever there are three, [handlePhotoCapture] returns
    at its guard without changing anything and the shutter delivers no
    click. *)
Theorem C1_at_most_three_stills (w : World) :
  reachable w ->
  (List.length (capturedPhotos (app w)) <= 3)%nat /\
  (forall ev w', step ev w = Some w' ->
                 (List.length (capturedPhotos (app w')) <= 3)%nat) /\
  ((3 <= List.length (capturedPhotos (app w)))%nat ->
   handlePhotoCapture w = (tt, w) /\ step ClickShutter w = None).
Proof.
  intros Hr. split; [| split].
  - apply (reachable_Inv w Hr).
  - intros ev w' Hstep.
    apply (reachable_Inv w' (reachable_step ev w w' Hr Hstep)).
  - apply capture_at_limit_rejected.
Qed.

Lemma C1_at_most_three_stills_witness :
  reachable (worldAfter threeCaptures) /\
  List.length (capturedPhotos (app (worldAfter threeCaptures))) = 3%nat /\
  handlePhotoCapture (worldAfter threeCaptures) = (tt, worldAfter threeCaptures) /\
  step ClickShutter (worldAfter threeCaptures) = None.
Proof.
  assert (Hr : reachable (worldAfter threeCaptures)).
  { exists threeCaptures. vm_compute. reflexivity. }
  assert (Hlen : List.length (capturedPhotos (app (worldAfter threeCaptures))) = 3%nat)
    by (vm_compute; reflexivity).
  destruct (C1_at_most_three_stills (worldAfter threeCaptures) Hr)
    as (_ & _ & Hrej).
  assert (Hge : (3 <= List.length (capturedPhotos (app (worldAfter threeCaptures))))%nat)
    by (rewrite Hlen; apply le_n).
  exact (conj Hr (conj Hlen (Hrej Hge))).
Defined.

(** ** Switching to the strip view *)

(** Only the end of a capture appends a still; when that makes three, the
    switch to the strip view is scheduled half a second later, and nothing
    else is queued. *)
Lemma fire_countdown_effect (w w' : World) (k : nat) (b : Browser)
      (due : Z) (i : nat) (closureFilter : FilterType) :
  nth_error (pending w) k = Some (due, CountdownResume i closureFilter) ->
  step (Fire k b) w = Some w' ->
  now w' = Z.max (now w) due /\
  showPhotoStrip (app w') = showPhotoStrip (app w) /\
  showCurtains (app w') = showCurtains (app w) /\
  isLoading (app w') = isLoading (app w) /\
  (capturedPhotos (app w') = capturedPhotos (app w) /\
   (forall t, In (t, ShowPhotoStrip) (pending w') -> In (t, ShowPhotoStrip) (pending w))
   \/
   (3 <= i)%nat /\
   surfaceUnavailable (captureEnv b) = false /\
   capturedPhotos (app w')
   = capturedPhotos (app w) ++ [mkPhoto (toDataURL (captureEnv b)) (now w')] /\
   isCapturing (app w') = false /\
   pending w'
   = removeAt k (pending w)
     ++ (if (List.length (capturedPhotos (app w')) =? 3)%nat
         then [(now w' + 500, ShowPhotoStrip)] else [])).
Proof.
  intros Hk Hstep. unfold step, dequeue in Hstep. rewrite Hk in Hstep.
  injection Hstep as <-.
  assert (Hsub : forall t, In (t, ShowPhotoStrip) (removeAt k (pending w)) ->
                           In (t, ShowPhotoStrip) (pending w)).
  { intros t Hin. unfold removeAt in Hin. apply in_app_or in Hin.
    rewrite <- (firstn_skipn k (pending w)). apply in_or_app.
    destruct Hin as [Hin | Hin]; [left; exact Hin |].
    right. rewrite <- (firstn_skipn 1 (skipn k (pending w))).
    apply in_or_app. right. rewrite skipn_skipn. exact Hin. }
  destruct w as [s n p al c st]. cbn [app pending now] in *.
  unfold runCallback, handlePhotoCapture_loop.
  destruct i as [| [| [| i]]]; cbn [nth_error countdownSequence].
  1-3: cbn -[Z.add Z.max]; repeat split; left; split; [reflexivity |];
       intros t Hin; apply in_app_or in Hin;
       destruct Hin as [Hin | [Hin | []]]; [auto | discriminate].
  replace (nth_error (A:=string) [] i) with (@None string)
    by (destruct i; reflexivity).
  destruct (surfaceUnavailable (captureEnv b)) eqn:Hu.
  - rewrite (finish_unavailable _ _ _ Hu). cbn -[Z.add Z.max].
    repeat split. left. split; [reflexivity | exact Hsub].
  - unfold exec, handlePhotoCapture_finish, bind, captureCurrentFrameM.
    cbn [setCountdown modifyApp canvas app now pending alerts stoppedTracks].
    pose proof (captureCurrentFrame_available closureFilter _ c Hu) as Hav.
    destruct (captureCurrentFrame closureFilter (captureEnv b) c) as [photoData c'].
    cbn [fst] in Hav. subst photoData. cbn [isTruthy].
    destruct (String.eqb (toDataURL (captureEnv b)) EmptyString); cbn [negb].
    + cbn -[Z.add Z.max]. repeat split. left. split; [reflexivity | exact Hsub].
    + unfold setCapturedPhotos, appendPhoto, bind, getApp, Date_now.
      cbn [app now capturedPhotos withCountdown].
      destruct (List.length (capturedPhotos s ++ _) =? 3)%nat eqn:Hthree;
        cbn -[Z.add Z.max Nat.eqb]; repeat split; right;
        (split; [lia |]); (split; [reflexivity |]); (split; [reflexivity |]);
        (split; [reflexivity |]); rewrite Hthree; rewrite ?app_nil_r; reflexivity.
Qed.

Lemma pending_counted {A} (q : A -> bool) (l : list A) (k : nat) (x : A) :
  nth_error l k = Some x -> q x = true ->
  (1 <= List.length (List.filter q l))%nat.
Proof.
  intros Hk Hq. rewrite (filter_removeAt q l k x Hk), Hq. lia.
Qed.

(** [showPhotoStrip] goes from false to true only when the scheduled
    [ShowPhotoStrip] callback runs. *)
Lemma step_shows_strip (ev : Event) (w w' : World) :
  step ev w = Some w' ->
  showPhotoStrip (app w) = false -> showPhotoStrip (app w') = true ->
  exists k b due,
    ev = Fire k b /\ nth_error (pending w) k = Some (due, ShowPhotoStrip).
Proof.
  intros Hstep Hoff Hon.
  destruct ev as [| | flt' | | k b]; unfold step in Hstep.
  - destruct (SessionPhase_eqb _ _); [| discriminate].
    injection Hstep as <-. cbn in Hon. congruence.
  - destruct (_ && _); [| discriminate]. injection Hstep as <-.
    unfold exec, handlePhotoCapture, bind, getApp in Hon.
    destruct (_ || _); cbn in Hon; congruence.
  - destruct (SessionPhase_eqb _ _); [| discriminate].
    injection Hstep as <-. cbn in Hon. congruence.
  - destruct (SessionPhase_eqb _ _); [| discriminate].
    injection Hstep as <-. cbn in Hon. congruence.
  - destruct (dequeue k w) as [[cb w1] |] eqn:Hdq; [| discriminate].
    pose proof Hdq as Hdq'. unfold dequeue in Hdq'.
    destruct (nth_error (pending w) k) as [[due cb'] |] eqn:Hk; [| discriminate].
    injection Hdq' as <- <-.
    destruct cb' as [| | createdAt | i closureFilter |].
    5: { exists k, b, due. auto. }
    4: { assert (Hst : step (Fire k b) w = Some w')
           by (unfold step; rewrite Hdq; exact Hstep).
         destruct (fire_countdown_effect w w' k b due i closureFilter Hk Hst)
           as (_ & Hsame & _). congruence. }
    all: injection Hstep as <-; exfalso; revert Hon;
      unfold runCallback, openCurtains, requestCameraAccess,
        requestCameraAccess_afterLoop, requestCameraAccess_afterVideo.
    + destruct (mediaDevices_getUserMedia b); cbn; congruence.
    + destruct (tryConfigs _ _ _) as [[mediaStream |] lastError];
        [destruct (videoRef_attached b) |]; cbn; congruence.
    + destruct (videoOutcome b); cbn; congruence.
Qed.

(** C3. In a reachable world:
    - the strip view is never shown with fewer than three stills;
    - when the end of a capture appends the third still, the session is
      and stays in the live view, and exactly one new callback is queued:
      [setShowPhotoStrip(true)], due 500 ms after the completion time;
    - when that callback runs, the clock is at least its due time, the
      three stills are still there, and the phase goes from [Live] to
      [Reviewing];
    - no other step turns [showPhotoStrip] on. *)
Theorem C3_strip_view_half_a_second_after_third_still (w : World) :
  reachable w ->
  (phase (app w) = Reviewing -> List.length (capturedPhotos (app w)) = 3%nat) /\
  (forall k b due i closureFilter w',
      nth_error (pending w) k = Some (due, CountdownResume i closureFilter) ->
      step (Fire k b) w = Some w' ->
      List.length (capturedPhotos (app w)) = 2%nat ->
      List.length (capturedPhotos (app w')) = 3%nat ->
      phase (app w) = Live /\ phase (app w') = Live /\
      now w' = Z.max (now w) due /\
      pending w' = removeAt k (pending w) ++ [(now w' + 500, ShowPhotoStrip)] /\
      showScheduled w' = 1%nat) /\
  (forall k b due,
      nth_error (pending w) k = Some (due, ShowPhotoStrip) ->
      exists w', step (Fire k b) w = Some w' /\
                 phase (app w) = Live /\ phase (app w') = Reviewing /\
                 due <= now w' /\
                 capturedPhotos (app w') = capturedPhotos (app w) /\
                 List.length (capturedPhotos (app w')) = 3%nat) /\
  (forall ev w',
      step ev w = Some w' ->
      phase (app w) = Live -> phase (app w') = Reviewing ->
      exists k b due,
        ev = Fire k b /\ nth_error (pending w) k = Some (due, ShowPhotoStrip)).
Proof.
  intros Hr. pose proof (reachable_Inv w Hr) as HI.
  destruct HI as (Hle & Hfl & Hss & Hcap & Hsched & Hstrip).
  split; [| split; [| split]].
  - unfold phase. intros Hp.
    destruct (showCurtains (app w)), (isLoading (app w)),
      (showPhotoStrip (app w)); try discriminate.
    apply Hstrip. reflexivity.
  - intros k b due i closureFilter w' Hk Hstep Htwo Hthree.
    pose proof (pending_counted isCountdownResume _ _ _ Hk eq_refl) as Hone.
    fold (inFlight w) in Hone.
    destruct (isCapturing (app w)) eqn:Hc; [| lia].
    destruct (Hcap eq_refl) as (_ & Hoff & _ & Hcur & Hload).
    destruct (fire_countdown_effect w w' k b due i closureFilter Hk Hstep)
      as (Hnow & Hs' & Hc' & Hl' & [(Hsame & _) | (_ & _ & _ & _ & Hpend)]).
    { rewrite Hsame in Hthree. lia. }
    assert (Hlive : phase (app w) = Live)
      by (unfold phase; rewrite Hcur, Hload, Hoff; reflexivity).
    assert (Hlive' : phase (app w') = Live)
      by (unfold phase; rewrite Hc', Hl', Hs', Hcur, Hload, Hoff; reflexivity).
    rewrite Hthree in Hpend. cbn [Nat.eqb] in Hpend.
    refine (conj Hlive (conj Hlive' (conj Hnow (conj Hpend _)))).
    pose proof (reachable_Inv w' (reachable_step _ _ _ Hr Hstep))
      as (_ & _ & Hss' & _).
    assert (1 <= showScheduled w')%nat; [| lia].
    unfold showScheduled. rewrite Hpend, filter_app, length_app. cbn. lia.
  - intros k b due Hk.
    pose proof (pending_counted isShowPhotoStrip _ _ _ Hk eq_refl) as Hone.
    fold (showScheduled w) in Hone.
    destruct (Hsched ltac:(lia)) as (Hthree & Hoff & Hcur & Hload).
    eexists. split.
    { unfold step, dequeue. rewrite Hk. reflexivity. }
    cbn -[Z.max]. unfold phase. cbn. rewrite Hcur, Hload, Hoff.
    repeat split; try reflexivity; try lia.
  - intros ev w' Hstep Hlive Hrev.
    apply (step_shows_strip ev w w' Hstep).
    + unfold phase in Hlive.
      destruct (showCurtains (app w)), (isLoading (app w)),
        (showPhotoStrip (app w)); (discriminate || reflexivity).
    + unfold phase in Hrev.
      destruct (showCurtains (app w')), (isLoading (app w')),
        (showPhotoStrip (app w')); (discriminate || reflexivity).
Qed.

Lemma C3_strip_view_half_a_second_after_third_still_witness :
  reachable (worldAfter threeCaptures) /\
  nth_error (pending (worldAfter threeCaptures)) 0 = Some (14500, ShowPhotoStrip) /\
  exists w', step (Fire 0 workingBrowser) (worldAfter threeCaptures) = Some w' /\
             phase (app (worldAfter threeCaptures)) = Live /\
             phase (app w') = Reviewing /\
             14500 <= now w' /\
             List.length (capturedPhotos (app w')) = 3%nat.
Proof.
  assert (Hr : reachable (worldAfter threeCaptures)).
  { exists threeCaptures. vm_compute. reflexivity. }
  assert (Hk : nth_error (pending (worldAfter threeCaptures)) 0
               = Some (14500, ShowPhotoStrip))
    by (vm_compute; reflexivity).
  destruct (C3_strip_view_half_a_second_after_third_still
              (worldAfter threeCaptures) Hr)
    as (_ & _ & Hfire & _).
  destruct (Hfire 0%nat workingBrowser 14500 Hk)
    as (w' & Hstep & Hlive & Hrev & Hdue & _ & Hlen).
  refine (conj Hr (conj Hk _)).
  exists w'. exact (conj Hstep (conj Hlive (conj Hrev (conj Hdue Hlen)))).
Defined.

(** ** Composite renderer *)

Lemma permutation_of_three (l : list nat) :
  Permutation l [0; 1; 2]%nat ->
  In l [ [0; 1; 2]; [0; 2; 1]; [1; 0; 2]; [1; 2; 0]; [2; 0; 1]; [2; 1; 0] ]%nat.
Proof.
  intros Hp. pose proof (Permutation_length Hp) as Hlen.
  destruct l as [| a [| b [| c [|]]]]; try discriminate.
  assert (Hnd : NoDup [a; b; c]).
  { apply (Permutation_NoDup (Permutation_sym Hp)).
    repeat constructor; cbn; intuition discriminate. }
  assert (Ha : In a [0; 1; 2]%nat) by (apply (Permutation_in _ Hp); cbn; auto).
  assert (Hb : In b [0; 1; 2]%nat) by (apply (Permutation_in _ Hp); cbn; auto).
  assert (Hc : In c [0; 1; 2]%nat) by (apply (Permutation_in _ Hp); cbn; auto).
  rewrite !NoDup_cons_iff in Hnd. cbn in Ha, Hb, Hc, Hnd.
  destruct Ha as [<- | [<- | [<- | []]]];
    destruct Hb as [<- | [<- | [<- | []]]];
    destruct Hc as [<- | [<- | [<- | []]]];
    cbn; intuition congruence.
Qed.

(** A decode order over the three images is one of the six orders, each
    completion with the date it reads. *)
Lemma order_of_three (order : list (nat * string)) :
  Permutation (map fst order) [0; 1; 2]%nat ->
  exists a b c d1 d2 d3,
    order = [(a, d1); (b, d2); (c, d3)] /\
    In [a; b; c] [ [0; 1; 2]; [0; 2; 1]; [1; 0; 2];
                   [1; 2; 0]; [2; 0; 1]; [2; 1; 0] ]%nat.
Proof.
  intros Hp. apply permutation_of_three in Hp.
  destruct order as [| [a d1] [| [b d2] [| [c d3] [|]]]];
    cbn in Hp; try solve [intuition discriminate].
  exists a, b, c, d1, d2, d3. split; [reflexivity | exact Hp].
Qed.

Import Strip.

(** The calls one [onload] makes: the card, the image and its border, then
    the caption if this completion is the third. *)
Lemma onload_ops img currentDate r :
  exists caption,
    ops (onload img currentDate r)
    = ops r
      ++ [ ShadowColor "rgba(0,0,0,0.15)"; ShadowBlur 8;
           ShadowOffsetX 3; ShadowOffsetY 3; FillStyle "#ffffff";
           FillRect 15 (20 + Z.of_nat (index img) * 185 - 5) 230 175;
           DrawImage img 20 (20 + Z.of_nat (index img) * 185) 220 165;
           ShadowColor "transparent"; ShadowBlur 0;
           ShadowOffsetX 0; ShadowOffsetY 0;
           StrokeStyle "#dee2e6"; LineWidth 1;
           StrokeRect 20 (20 + Z.of_nat (index img) * 185) 220 165 ]
      ++ caption /\
    (forall op, In op caption -> isDrawImage op = false) /\
    caption = (if (S (loadedCount r) =? 3)%nat
               then [ FillStyle "#495057"; Font "italic bold 18px Georgia, serif";
                      TextAlign "center";
                      FillText (captionText currentDate) 130 610 ]
               else []).
Proof.
  unfold onload. cbn [ops loadedCount decoding].
  eexists. split; [reflexivity |].
  destruct (S (loadedCount r) =? 3)%nat; cbn; repeat split; try reflexivity.
  - intros op [<- | [<- | [<- | [<- | []]]]]; reflexivity.
  - intros op [].
Qed.

Lemma decoded_is_onload i currentDate r r' :
  decoded i currentDate r = Some r' ->
  exists img,
    In img (decoding r) /\ index img = i /\
    r' = onload img currentDate
           (mkRendering (ops r) (loadedCount r)
              (List.filter (fun img' => negb (stillDecoding i img')) (decoding r))).
Proof.
  unfold decoded. intros Hd.
  destruct (find (stillDecoding i) (decoding r)) as [img |] eqn:Hf; [| discriminate].
  apply find_some in Hf. destruct Hf as (Hin & Hi).
  exists img. unfold stillDecoding in Hi. apply Nat.eqb_eq in Hi.
  injection Hd as <-. auto.
Qed.

(** The position of an image on the strip is a function of its index
    alone: this holds after any sequence of decode completions. *)
Lemma decodedInOrder_placed order : forall r r',
  (forall img x y w h, In (DrawImage img x y w h) (ops r) ->
     x = 20 /\ y = 20 + Z.of_nat (index img) * 185 /\ w = 220 /\ h = 165) ->
  decodedInOrder order r = Some r' ->
  forall img x y w h, In (DrawImage img x y w h) (ops r') ->
     x = 20 /\ y = 20 + Z.of_nat (index img) * 185 /\ w = 220 /\ h = 165.
Proof.
  induction order as [| [i currentDate] rest IH]; intros r r' Hplaced Hrun.
  - injection Hrun as <-. exact Hplaced.
  - cbn [decodedInOrder] in Hrun.
    destruct (decoded i currentDate r) as [r1 |] eqn:Hd; [| discriminate].
    apply (IH r1 r'); [| exact Hrun].
    destruct (decoded_is_onload _ _ _ _ Hd) as (img1 & _ & _ & ->).
    destruct (onload_ops img1 currentDate
                (mkRendering (ops r) (loadedCount r)
                   (List.filter (fun img' => negb (stillDecoding i img'))
                                (decoding r))))
      as (caption & -> & Hcap & _).
    cbn [ops]. intros img x y w h Hin.
    apply in_app_or in Hin. destruct Hin as [Hin | Hin]; [eauto |].
    apply in_app_or in Hin. destruct Hin as [Hin | Hin].
    + cbn in Hin.
      repeat (destruct Hin as [Hin | Hin]; [try discriminate Hin |]);
        try contradiction.
      injection Hin as <- <- <- <- <-. repeat split; reflexivity.
    + apply Hcap in Hin. discriminate.
Qed.

Ltac in_ops := cbn; repeat first [left; reflexivity | right].

Ltac six_orders Hin :=
  cbn in Hin;
  repeat (destruct Hin as [Hin | Hin]; [injection Hin as <- <- <- |]);
  [.. | contradiction].

(** C5. For three stills and any order in which the three decodes
    complete, the renderer finishes with every image decoded and exactly
    three [drawImage] calls on the strip: the image of the still at index
    [i] into the 220x165 box at [(20, 20 + i*185)].  Conversely every
    [drawImage] it made shows the still of its own index at that offset, so
    the layout is the same for all six orders. *)
Theorem C5_still_i_drawn_at_20_plus_185_i
        (capturedPhotos : list CapturedPhoto) (order : list (nat * string)) :
  List.length capturedPhotos = 3%nat ->
  Permutation (map fst order) [0; 1; 2]%nat ->
  exists r0 r,
    createPhotoStrip true true capturedPhotos = Some r0 /\
    decodedInOrder order r0 = Some r /\
    decoding r = [] /\
    (forall i photo,
        nth_error capturedPhotos i = Some photo ->
        In (DrawImage (mkImage i (dataUrl photo)) 20 (20 + Z.of_nat i * 185) 220 165)
           (ops r)) /\
    (forall img x y w h,
        In (DrawImage img x y w h) (ops r) ->
        x = 20 /\ y = 20 + Z.of_nat (index img) * 185 /\ w = 220 /\ h = 165 /\
        exists photo, nth_error capturedPhotos (index img) = Some photo /\
                      src img = dataUrl photo) /\
    List.length (List.filter isDrawImage (ops r)) = 3%nat.
Proof.
  intros Hlen Hperm.
  destruct capturedPhotos as [| p0 [| p1 [| p2 [|]]]]; try discriminate.
  destruct (order_of_three order Hperm) as (a & b & c & d1 & d2 & d3 & -> & Hin).
  six_orders Hin.
  all: eexists; eexists; split; [reflexivity |]; split; [reflexivity |].
  all: split; [reflexivity |]; split; [| split; [| reflexivity]].
  all: try (intros [| [| [| i]]] photo Hnth; cbn in Hnth;
            [injection Hnth as <-; in_ops .. | destruct i; discriminate]).
  all: intros img x y w h Hdraw; cbn in Hdraw;
    repeat (destruct Hdraw as [Hdraw | Hdraw]; [try discriminate Hdraw |]);
    try contradiction;
    injection Hdraw as <- <- <- <- <-; cbn;
    repeat split; try reflexivity; eexists; split; reflexivity.
Qed.

Lemma C5_still_i_drawn_at_20_plus_185_i_witness :
  exists r,
    decodedInOrder [(2%nat, "May 3, 2025"); (0%nat, "May 3, 2025"); (1%nat, "May 3, 2025")]
                   (mkRendering
                      [ SetWidth 260; SetHeight 650;
                        FillStyleLinearGradient 0 0 0 650 [(0, "#ffffff"); (1, "#f8f9fa")];
                        FillRect 0 0 260 650; StrokeStyle "#e9ecef"; LineWidth 2;
                        StrokeRect 1 1 258 648 ]
                      0
                      [mkImage 0 "data:a"; mkImage 1 "data:b"; mkImage 2 "data:c"])
    = Some r /\
    In (DrawImage (mkImage 0 "data:a") 20 20 220 165) (ops r) /\
    In (DrawImage (mkImage 1 "data:b") 20 205 220 165) (ops r) /\
    In (DrawImage (mkImage 2 "data:c") 20 390 220 165) (ops r).
Proof.
  assert (Hlen : List.length samplePhotos = 3%nat) by reflexivity.
  assert (Hperm : Permutation
                    (map fst [(2%nat, "May 3, 2025"); (0%nat, "May 3, 2025");
                              (1%nat, "May 3, 2025")])
                    [0; 1; 2]%nat).
  { cbn. eapply perm_trans; [apply perm_swap | apply perm_skip, perm_swap]. }
  destruct (C5_still_i_drawn_at_20_plus_185_i samplePhotos _ Hlen Hperm)
    as (r0 & r & Hcreate & Hrun & _ & Hdrawn & _).
  vm_compute in Hcreate. injection Hcreate as <-.
  exists r. split; [exact Hrun |].
  refine (conj (Hdrawn 0%nat _ eq_refl) (conj (Hdrawn 1%nat _ eq_refl)
                                               (Hdrawn 2%nat _ eq_refl))).
Defined.

Lemma drawsBeforeCaption_none (l : list Op) :
  drawsBeforeCaption l = None <-> existsb isFillText l = false.
Proof.
  induction l as [| op rest IH]; cbn; [tauto |].
  destruct op; cbn; try (destruct (drawsBeforeCaption rest); cbn;
                         split; intros H; try discriminate;
                         try (apply IH; exact H);
                         try (apply IH in H; discriminate)).
Qed.

(** C7. For three stills and any order of the three decode completions:
    after the first [n] completions the renderer has counted [n], drawn
    [n] images, and drawn the caption if and only if [n] is 3.  At the
    third completion the caption is the last thing drawn: its text, with
    the date read at that moment, centred at [(130, 610)], comes after all
    three [drawImage] calls. *)
Theorem C7_caption_only_after_third_decode
        (capturedPhotos : list CapturedPhoto) (order : list (nat * string)) :
  List.length capturedPhotos = 3%nat ->
  Permutation (map fst order) [0; 1; 2]%nat ->
  exists r0,
    createPhotoStrip true true capturedPhotos = Some r0 /\
    (forall n, (n <= 3)%nat ->
       exists r, decodedInOrder (firstn n order) r0 = Some r /\
                 loadedCount r = n /\
                 List.length (List.filter isDrawImage (ops r)) = n /\
                 captionDrawn r = (n =? 3)%nat /\
                 drawsBeforeCaption (ops r)
                 = (if (n =? 3)%nat then Some 3%nat else None)) /\
    (exists r pre i currentDate,
        decodedInOrder order r0 = Some r /\
        nth_error order 2 = Some (i, currentDate) /\
        ops r = pre ++ [ FillStyle "#495057";
                         Font "italic bold 18px Georgia, serif";
                         TextAlign "center";
                         FillText (captionText currentDate) 130 610 ] /\
        existsb isFillText pre = false /\
        List.length (List.filter isDrawImage pre) = 3%nat).
Proof.
  intros Hlen Hperm.
  destruct capturedPhotos as [| p0 [| p1 [| p2 [|]]]]; try discriminate.
  destruct (order_of_three order Hperm) as (a & b & c & d1 & d2 & d3 & -> & Hin).
  six_orders Hin.
  all: eexists; split; [reflexivity |]; split.
  all: try (intros [| [| [| [| n]]]] Hn; [.. | lia];
            eexists; (split; [reflexivity |]); repeat split; reflexivity).
  all: eexists; eexists; eexists; eexists; split; [reflexivity |];
    split; [reflexivity |].
  all: match goal with
       | |- ops ?r = _ ++ _ /\ _ =>
           instantiate (1 := firstn 49 (ops r))
       end; repeat split; reflexivity.
Qed.

Lemma C7_caption_only_after_third_decode_witness :
  exists r0 r2 r3,
    createPhotoStrip true true samplePhotos = Some r0 /\
    decodedInOrder [(1%nat, "May 3, 2025"); (2%nat, "May 3, 2025")] r0 = Some r2 /\
    captionDrawn r2 = false /\
    decodedInOrder [(1%nat, "May 3, 2025"); (2%nat, "May 3, 2025");
                    (0%nat, "May 4, 2025")] r0 = Some r3 /\
    drawsBeforeCaption (ops r3) = Some 3%nat.
Proof.
  assert (Hlen : List.length samplePhotos = 3%nat) by reflexivity.
  assert (Hperm : Permutation
                    (map fst [(1%nat, "May 3, 2025"); (2%nat, "May 3, 2025");
                              (0%nat, "May 4, 2025")])
                    [0; 1; 2]%nat).
  { cbn. eapply perm_trans; [apply perm_skip, perm_swap | apply perm_swap]. }
  destruct (C7_caption_only_after_third_decode samplePhotos _ Hlen Hperm)
    as (r0 & Hcreate & Hprefix & _).
  destruct (Hprefix 2%nat ltac:(lia)) as (r2 & Hrun2 & _ & _ & Hcap2 & _).
  destruct (Hprefix 3%nat ltac:(lia)) as (r3 & Hrun3 & _ & _ & _ & Hcap3).
  exists r0, r2, r3.
  exact (conj Hcreate (conj Hrun2 (conj Hcap2 (conj Hrun3 Hcap3)))).
Defined.

(** ** Which filter a capture uses *)

(** [handlePhotoCapture] calls the [captureCurrentFrame] of the render in
    which the shutter was pressed: the filter of the still is the one
    selected at the click, also when another one is selected during the
    countdown. *)
Lemma capture_uses_filter_selected_at_click :
  let w := worldAfter (toLive ++ [ClickShutter; ClickFilter Noir;
                                  Fire 0 workingBrowser; Fire 0 workingBrowser;
                                  Fire 0 workingBrowser; Fire 0 workingBrowser]) in
  currentFilter (app w) = Noir /\
  map (fun dr => Canvas.filter (Canvas.drawnWith dr)) (Canvas.bitmap (canvas w))
  = [selectedFilterOf F2000s].
Proof.
  vm_compute. split; reflexivity.
Qed.

(** C6. The still is not always drawn with the filter that is selected
    when the frame is read.  The shutter is clicked with the 2000s filter
    selected and Noir is selected during the countdown.  When
    the frame is read, the selection is Noir, yet the one draw on the
    capture canvas is made with the CSS of the 2000s filter, which is not
    the CSS of the selection: [handlePhotoCapture] calls the
    [captureCurrentFrame] of the render in which the shutter was clicked.
    The rest of the rasterization is as specified: the canvas has the
    video's size, the draw is mirrored, and the context is left with filter
    ["none"]. *)
Lemma C6_still_drawn_with_filter_no_longer_selected :
  let before := worldAfter (toLive ++ [ClickShutter; ClickFilter Noir;
                                       Fire 0 workingBrowser; Fire 0 workingBrowser;
                                       Fire 0 workingBrowser]) in
  let after := worldAfter (toLive ++ [ClickShutter; ClickFilter Noir;
                                      Fire 0 workingBrowser; Fire 0 workingBrowser;
                                      Fire 0 workingBrowser; Fire 0 workingBrowser]) in
  currentFilter (app before) = Noir /\
  pending before = [(6000, CountdownResume 3 F2000s)] /\
  step (Fire 0 workingBrowser) before = Some after /\
  currentFilter (app after) = Noir /\
  List.length (capturedPhotos (app after)) = 1%nat /\
  Canvas.bitmap (canvas after)
  = [Canvas.mkDraw sampleVideo (-640) 0
       (Canvas.mkDrawingState (selectedFilterOf F2000s)
                              (Canvas.mkTransform (-1) 1 0 0))] /\
  selectedFilterOf F2000s <> selectedFilterOf (currentFilter (app before)) /\
  Canvas.width (canvas after) = 640 /\ Canvas.height (canvas after) = 480 /\
  Canvas.state (canvas after) = Canvas.defaultState.
Proof.
  cbv zeta.
  refine (conj _ (conj _ (conj _ (conj _ (conj _ (conj _ (conj _ (conj _ (conj _ _))))))))).
  all: vm_compute; try reflexivity.
  discriminate.
Qed.

(* ===================================================================== *)
(** * Further properties of the component *)
(* ===================================================================== *)

(** ** Device acquisition *)

(** The loop of [requestCameraAccess] stops at the first configuration that
    yields a stream. *)
Lemma tryConfigs_first_success gum before config after mediaStream lastError :
  (forall c, In c before -> exists error, gum c = inl error) ->
  gum config = inr mediaStream ->
  fst (tryConfigs gum (before ++ config :: after) lastError) = Some mediaStream.
Proof.
  revert lastError. induction before as [| c rest IH]; intros lastError Hfail Hok.
  - cbn. rewrite Hok. reflexivity.
  - cbn [List.app tryConfigs].
    destruct (Hfail c (or_introl eq_refl)) as (error & ->).
    apply IH; [| exact Hok]. intros c' Hc'. apply Hfail. right. exact Hc'.
Qed.

(** X1. [requestCameraAccess] takes the stream of the first configuration,
    in the order ideal-front-facing, video-only, fixed 640x480, whose
    [getUserMedia] call succeeds; configurations after it play no part.
    The stream becomes the held one, the tracks of a stream held before are
    stopped, and no alert is shown; without a video element to wait for,
    loading ends at once, otherwise the handler waits for the element. *)
Theorem X1_first_working_configuration_wins
        (w : World) (b : Browser) (before after : list CameraConfig)
        (config : CameraConfig) (mediaStream : MediaStream) :
  cameraConfigs = before ++ config :: after ->
  (forall c, In c before -> exists error, getUserMedia b c = inl error) ->
  getUserMedia b config = inr mediaStream ->
  let w' := exec (requestCameraAccess_afterLoop b) w in
  stream (app w') = Some mediaStream /\
  alerts w' = alerts w /\
  stoppedTracks w'
  = stoppedTracks w ++ match stream (app w) with
                       | Some held => getTracks held
                       | None => []
                       end /\
  (videoRef_attached b = false ->
   isLoading (app w') = false /\ pending w' = pending w) /\
  (videoRef_attached b = true ->
   isLoading (app w') = isLoading (app w) /\
   pending w' = pending w ++ [(now w + 0, VideoSettled (now w))]).
Proof.
  intros Hconfigs Hfail Hok. cbv zeta.
  pose proof (tryConfigs_first_success (getUserMedia b) before config after
                mediaStream None Hfail Hok) as Hfirst.
  rewrite <- Hconfigs in Hfirst.
  unfold requestCameraAccess_afterLoop.
  destruct (tryConfigs (getUserMedia b) cameraConfigs None) as [found lastError].
  cbn [fst] in Hfirst. subst found.
  destruct (videoRef_attached b); cbn -[Z.add];
    repeat split; intros; try reflexivity; discriminate.
Qed.

Lemma X1_first_working_configuration_wins_witness :
  stream (app (exec (requestCameraAccess_afterLoop secondConfigBrowser)
                    (worldAfter toAwaitingDevice))) = Some sampleStream /\
  alerts (exec (requestCameraAccess_afterLoop secondConfigBrowser)
               (worldAfter toAwaitingDevice)) = [].
Proof.
  assert (Hfail : forall c, In c [IdealFrontFacing] ->
            exists error, getUserMedia secondConfigBrowser c = inl error).
  { intros c [<- | []]. eexists. reflexivity. }
  destruct (X1_first_working_configuration_wins
              (worldAfter toAwaitingDevice) secondConfigBrowser
              [IdealFrontFacing] [Fixed640x480] VideoOnly sampleStream
              eq_refl Hfail eq_refl)
    as (Hstream & Halerts & _).
  split; [exact Hstream |]. rewrite Halerts. vm_compute. reflexivity.
Defined.

(** What a callback can add to the alerts. *)
Lemma callback_alert (cb : Callback) (b : Browser) (w : World) :
  let w' := exec (runCallback cb b) w in
  alerts w' = alerts w \/
  (exists errorMessage,
      alerts w' = alerts w ++ [cameraErrorAlert errorMessage] /\
      isLoading (app w') = false /\
      stream (app w') = stream (app w) /\
      stoppedTracks w' = stoppedTracks w /\
      (cb = OpenCurtains \/ cb = GetUserMediaSettled \/
       exists createdAt, cb = VideoSettled createdAt)).
Proof.
  cbv zeta. destruct cb as [| | createdAt | i closureFilter |]; unfold runCallback.
  - unfold openCurtains, requestCameraAccess.
    destruct (mediaDevices_getUserMedia b); cbn -[cameraErrorAlert];
      [left; reflexivity |].
    right. eexists. repeat split; auto.
  - unfold requestCameraAccess_afterLoop.
    destruct (tryConfigs _ _ _) as [[mediaStream |] lastError].
    + destruct (videoRef_attached b); left; reflexivity.
    + right. eexists. cbn -[cameraErrorAlert]. repeat split; auto.
  - unfold requestCameraAccess_afterVideo.
    destruct (videoOutcome b); cbn -[Z.max Z.add cameraErrorAlert];
      [left; reflexivity | right; eexists; repeat split; eauto ..].
  - left. unfold handlePhotoCapture_loop.
    destruct (nth_error countdownSequence (S i)); [reflexivity |].
    unfold exec, handlePhotoCapture_finish, bind, captureCurrentFrameM.
    cbn [setCountdown modifyApp canvas app now pending alerts stoppedTracks].
    destruct (captureCurrentFrame closureFilter (captureEnv b) (canvas w))
      as [photoData c'].
    destruct (isTruthy photoData); [| reflexivity].
    unfold setCapturedPhotos, appendPhoto, bind, getApp, Date_now.
    cbn [app now capturedPhotos withCountdown].
    destruct (List.length _ =? 3)%nat; reflexivity.
  - left. reflexivity.
Qed.

(** X3. In a browser without [getUserMedia] the curtains open straight onto
    the live view: [requestCameraAccess] makes no request (nothing is left
    pending), holds no stream, and shows the alert that names the cause. *)
Theorem X3_unsupported_browser_skips_the_request (w : World) (b : Browser) :
  mediaDevices_getUserMedia b = false ->
  let w' := exec (openCurtains b) w in
  pending w' = pending w /\
  stream (app w') = stream (app w) /\
  alerts w' = alerts w ++ [cameraErrorAlert "Camera not supported by this browser"] /\
  showCurtains (app w') = false /\ isLoading (app w') = false /\
  (showPhotoStrip (app w) = false -> phase (app w') = Live).
Proof.
  intros Hno. cbv zeta. unfold openCurtains, requestCameraAccess.
  rewrite Hno. cbn -[cameraErrorAlert]. repeat split. intros Hs. unfold phase. cbn. rewrite Hs.
  reflexivity.
Qed.

Lemma X3_unsupported_browser_skips_the_request_witness :
  run [ClickCoin; Fire 0 unsupportedBrowser] initialWorld
  = Some (exec (openCurtains unsupportedBrowser)
               (mkWorld (withCurtainsAnimating true initialState) 2000 [] []
                        Canvas.blank [])) /\
  pending (exec (openCurtains unsupportedBrowser)
                (mkWorld (withCurtainsAnimating true initialState) 2000 [] []
                         Canvas.blank [])) = [] /\
  phase (app (exec (openCurtains unsupportedBrowser)
                   (mkWorld (withCurtainsAnimating true initialState) 2000 [] []
                            Canvas.blank []))) = Live.
Proof.
  destruct (X3_unsupported_browser_skips_the_request
              (mkWorld (withCurtainsAnimating true initialState) 2000 [] []
                       Canvas.blank [])
              unsupportedBrowser eq_refl)
    as (Hpending & _ & _ & _ & _ & Hlive).
  refine (conj _ (conj Hpending (Hlive eq_refl))).
  vm_compute. reflexivity.
Defined.

(** ** What a step of the event loop can change *)

(** The callbacks of device acquisition leave the capture state alone. *)
Lemma camera_callback_frame (cb : Callback) (b : Browser) (w : World) :
  match cb with
  | OpenCurtains | GetUserMediaSettled | VideoSettled _ => True
  | _ => False
  end ->
  let w' := exec (runCallback cb b) w in
  now w <= now w' /\
  capturedPhotos (app w') = capturedPhotos (app w) /\
  isCapturing (app w') = isCapturing (app w) /\
  countdown (app w') = countdown (app w) /\
  currentFilter (app w') = currentFilter (app w) /\
  showPhotoStrip (app w') = showPhotoStrip (app w) /\
  canvas w' = canvas w /\
  (showCurtains (app w) = false -> showCurtains (app w') = false) /\
  (isLoading (app w) = false -> isLoading (app w') = false) /\
  (forall t cb', In (t, cb') (pending w') ->
                 In (t, cb') (pending w) \/
                 cb' = GetUserMediaSettled \/ exists t0, cb' = VideoSettled t0).
Proof.
  intros Hcam. cbv zeta.
  destruct cb as [| | createdAt | i closureFilter |]; try contradiction;
    unfold runCallback, openCurtains, requestCameraAccess,
      requestCameraAccess_afterLoop, requestCameraAccess_afterVideo.
  - destruct (mediaDevices_getUserMedia b); cbn -[cameraErrorAlert Z.add];
      repeat split; auto; try lia.
    intros t cb' Hin. apply in_app_or in Hin.
    destruct Hin as [Hin | [[= <- <-] | []]]; auto.
  - destruct (tryConfigs _ _ _) as [[mediaStream |] lastError];
      [destruct (videoRef_attached b) |];
      cbn -[cameraErrorAlert Z.add]; repeat split; auto; try lia.
    intros t cb' Hin. apply in_app_or in Hin.
    destruct Hin as [Hin | [[= <- <-] | []]]; eauto.
  - destruct (videoOutcome b); cbn -[cameraErrorAlert Z.add Z.max];
      repeat split; auto; try lia.
Qed.

Lemma dequeue_spec (k : nat) (w : World) (cb : Callback) (w1 : World) :
  dequeue k w = Some (cb, w1) ->
  exists due,
    nth_error (pending w) k = Some (due, cb) /\
    app w1 = app w /\ now w1 = Z.max (now w) due /\
    pending w1 = removeAt k (pending w) /\
    alerts w1 = alerts w /\ canvas w1 = canvas w /\
    stoppedTracks w1 = stoppedTracks w.
Proof.
  unfold dequeue.
  destruct (nth_error (pending w) k) as [[due cb'] |]; [| discriminate].
  intros [= <- <-]. exists due. repeat split; reflexivity.
Qed.

(** The capture pipeline does not touch the filter selection. *)
Lemma countdown_callback_keeps_filter i closureFilter b w :
  currentFilter (app (exec (runCallback (CountdownResume i closureFilter) b) w))
  = currentFilter (app w).
Proof.
  unfold runCallback, handlePhotoCapture_loop.
  destruct (nth_error countdownSequence (S i)); [reflexivity |].
  unfold exec, handlePhotoCapture_finish, bind, captureCurrentFrameM.
  cbn [setCountdown modifyApp canvas app now pending alerts stoppedTracks].
  destruct (captureCurrentFrame closureFilter (captureEnv b) (canvas w))
    as [photoData c'].
  destruct (isTruthy photoData); [| reflexivity].
  unfold setCapturedPhotos, appendPhoto, bind, getApp, Date_now.
  cbn [app now capturedPhotos withCountdown].
  destruct (List.length _ =? 3)%nat; reflexivity.
Qed.

(** Time does not run backwards, the curtains do not close again and the
    loading screen does not come back; the filter changes only by a click
    on a filter button; the stills are kept as they are, or all discarded
    by Reshoot, or extended at the end by the still a capture just took. *)
Lemma step_frame (ev : Event) (w w' : World) :
  step ev w = Some w' ->
  now w <= now w' /\
  (showCurtains (app w) = false -> showCurtains (app w') = false) /\
  (isLoading (app w) = false -> isLoading (app w') = false) /\
  (currentFilter (app w') = currentFilter (app w) \/
   ev = ClickFilter (currentFilter (app w'))) /\
  (capturedPhotos (app w') = capturedPhotos (app w) \/
   ev = ClickReshoot /\ capturedPhotos (app w') = [] \/
   exists k b due i closureFilter,
     ev = Fire k b /\
     nth_error (pending w) k = Some (due, CountdownResume i closureFilter) /\
     capturedPhotos (app w')
     = capturedPhotos (app w) ++ [mkPhoto (toDataURL (captureEnv b)) (now w')]).
Proof.
  intros Hstep.
  destruct ev as [| | flt' | | k b]; unfold step in Hstep.
  - destruct (SessionPhase_eqb _ _); [| discriminate].
    injection Hstep as <-. cbn -[Z.add]. repeat split; auto; lia.
  - destruct (_ && _); [| discriminate]. injection Hstep as <-.
    unfold exec, handlePhotoCapture, bind, getApp.
    destruct (_ || _); cbn -[Z.add]; repeat split; auto; lia.
  - destruct (SessionPhase_eqb _ _); [| discriminate].
    injection Hstep as <-. cbn. repeat split; auto; lia.
  - destruct (SessionPhase_eqb _ _); [| discriminate].
    injection Hstep as <-. cbn. repeat split; auto; lia.
  - destruct (dequeue k w) as [[cb w1] |] eqn:Hdq; [| discriminate].
    destruct (dequeue_spec k w cb w1 Hdq)
      as (due & Hk & Happ & Hnow1 & _ & _ & _ & _).
    assert (Hst : step (Fire k b) w = Some w')
      by (unfold step; rewrite Hdq; exact Hstep).
    injection Hstep as <-.
    destruct cb as [| | createdAt | i closureFilter |].
    4: { destruct (fire_countdown_effect w _ k b due i closureFilter Hk Hst)
           as (Hnow & _ & Hcur & Hload & Hphotos).
         repeat split; try congruence; try lia.
         - left. rewrite countdown_callback_keeps_filter, Happ. reflexivity.
         - destruct Hphotos as [(Hsame & _) | (_ & _ & Hadd & _)];
             [left; exact Hsame |].
           right. right. exists k, b, due, i, closureFilter. auto. }
    4: { cbn -[Z.max]. rewrite Happ, Hnow1. repeat split; auto; lia. }
    1: pose proof (camera_callback_frame OpenCurtains b w1 I) as Hf.
    2: pose proof (camera_callback_frame GetUserMediaSettled b w1 I) as Hf.
    3: pose proof (camera_callback_frame (VideoSettled createdAt) b w1 I) as Hf.
    all: cbv zeta in Hf;
      destruct Hf as (Hnow & Hph & _ & _ & Hflt & _ & _ & Hcur & Hload & _);
      rewrite Happ in *; repeat split; auto; lia.
Qed.

(** X2. Whatever happens next in a session - a click on the coin, the
    shutter, a filter or Reshoot, or any pending callback - either no alert
    is shown, or exactly one is, and then it is the camera-error alert of
    [requestCameraAccess], shown by one of its callbacks, which thereby
    also ends the loading screen and neither replaces nor releases the
    stream held at that moment.  No click handler and no callback of the
    capture pipeline ever shows an alert. *)
Theorem X2_only_camera_errors_alert (ev : Event) (w w' : World) :
  step ev w = Some w' ->
  alerts w' = alerts w \/
  (exists k b due cb errorMessage,
      ev = Fire k b /\
      nth_error (pending w) k = Some (due, cb) /\
      (cb = OpenCurtains \/ cb = GetUserMediaSettled \/
       exists createdAt, cb = VideoSettled createdAt) /\
      alerts w' = alerts w ++ [cameraErrorAlert errorMessage] /\
      isLoading (app w') = false /\
      stream (app w') = stream (app w) /\
      stoppedTracks w' = stoppedTracks w).
Proof.
  intros Hstep.
  destruct ev as [| | flt' | | k b]; unfold step in Hstep.
  - destruct (SessionPhase_eqb _ _); [| discriminate].
    injection Hstep as <-. left. reflexivity.
  - destruct (_ && _); [| discriminate]. injection Hstep as <-.
    unfold exec, handlePhotoCapture, bind, getApp.
    destruct (_ || _); left; reflexivity.
  - destruct (SessionPhase_eqb _ _); [| discriminate].
    injection Hstep as <-. left. reflexivity.
  - destruct (SessionPhase_eqb _ _); [| discriminate].
    injection Hstep as <-. left. reflexivity.
  - destruct (dequeue k w) as [[cb w1] |] eqn:Hdq; [| discriminate].
    destruct (dequeue_spec k w cb w1 Hdq)
      as (due & Hk & Happ & _ & _ & Halerts & _ & Hstopped).
    injection Hstep as <-.
    destruct (callback_alert cb b w1)
      as [Hsame | (errorMessage & Hadd & Hload & Hstream & Hst & Hcam)].
    + left. rewrite Hsame. exact Halerts.
    + right. exists k, b, due, cb, errorMessage.
      rewrite Hadd, Hstream, Hst, Halerts, Happ, Hstopped. auto 10.
Qed.

Lemma X2_only_camera_errors_alert_witness :
  alerts (worldAfter (toAwaitingDevice ++ [Fire 0 deniedBrowser]))
  = [cameraErrorAlert "Permission denied"] /\
  isLoading (app (worldAfter (toAwaitingDevice ++ [Fire 0 deniedBrowser]))) = false.
Proof.
  assert (Hstep : step (Fire 0 deniedBrowser) (worldAfter toAwaitingDevice)
                  = Some (worldAfter (toAwaitingDevice ++ [Fire 0 deniedBrowser])))
    by (vm_compute; reflexivity).
  destruct (X2_only_camera_errors_alert _ _ _ Hstep)
    as [Hsame | (k & b & due & cb & msg & _ & _ & _ & _ & Hload & _)].
  - vm_compute in Hsame. discriminate Hsame.
  - split; [vm_compute; reflexivity | exact Hload].
Defined.

(** X4. A still, once taken, is never changed, reordered or removed on its
    own: over any sequence of clicks and callbacks that contains no Reshoot
    click (filter changes, further captures, camera callbacks, ...), the
    stills at the start are an initial segment of the stills at the end. *)
Theorem X4_stills_are_only_appended (evs : list Event) (w w' : World) :
  run evs w = Some w' ->
  ~ In ClickReshoot evs ->
  exists added,
    capturedPhotos (app w') = capturedPhotos (app w) ++ added.
Proof.
  revert w. induction evs as [| ev rest IH]; intros w Hrun Hno; cbn [run] in Hrun.
  - injection Hrun as <-. exists []. rewrite app_nil_r. reflexivity.
  - destruct (step ev w) as [w1 |] eqn:Hstep; [| discriminate].
    destruct (IH w1 Hrun) as (added & Hadded).
    { intros Hin. apply Hno. right. exact Hin. }
    destruct (step_frame ev w w1 Hstep) as (_ & _ & _ & _ & Hphotos).
    destruct Hphotos as [Hsame | [(Hreset & _) | (k & b & due & i & f & _ & _ & Hadd)]].
    + exists added. rewrite Hadded, Hsame. reflexivity.
    + exfalso. apply Hno. left. exact Hreset.
    + eexists. rewrite Hadded, Hadd, <- app_assoc. reflexivity.
Qed.

Lemma X4_stills_are_only_appended_witness :
  exists added,
    capturedPhotos (app (worldAfter threeCaptures))
    = capturedPhotos (app (worldAfter (toLive ++ oneCapture 0 workingBrowser)))
      ++ added.
Proof.
  apply (X4_stills_are_only_appended
           (oneCapture 0 workingBrowser ++ oneCapture 0 workingBrowser)
           (worldAfter (toLive ++ oneCapture 0 workingBrowser))
           (worldAfter threeCaptures)).
  - vm_compute. reflexivity.
  - vm_compute. intros H.
    repeat (destruct H as [H | H]; [discriminate H |]). exact H.
Defined.

(** X5. The session never goes back: once the curtains are open the intro
    is not shown again, and once loading has ended the loading screen is not
    shown again, over any sequence of clicks and callbacks. *)
Theorem X5_intro_and_loading_are_passed_once (evs : list Event) (w w' : World) :
  run evs w = Some w' ->
  (phaseRank (phase (app w)) <= phaseRank (phase (app w')))%nat /\
  (showCurtains (app w) = false -> showCurtains (app w') = false) /\
  (isLoading (app w) = false -> isLoading (app w') = false).
Proof.
  revert w. induction evs as [| ev rest IH]; intros w Hrun; cbn [run] in Hrun.
  - injection Hrun as <-. auto.
  - destruct (step ev w) as [w1 |] eqn:Hstep; [| discriminate].
    destruct (IH w1 Hrun) as (Hrank & Hcur & Hload).
    destruct (step_frame ev w w1 Hstep) as (_ & Hcur1 & Hload1 & _).
    split; [| split; auto].
    eapply Nat.le_trans; [| exact Hrank].
    unfold phase.
    destruct (showCurtains (app w)) eqn:Hc; [cbn; lia |].
    rewrite (Hcur1 eq_refl).
    destruct (isLoading (app w)) eqn:Hl.
    + destruct (isLoading (app w1)), (showPhotoStrip (app w1)); cbn; lia.
    + rewrite (Hload1 eq_refl).
      destruct (showPhotoStrip (app w)), (showPhotoStrip (app w1)); cbn; lia.
Qed.

Lemma X5_intro_and_loading_are_passed_once_witness :
  (phaseRank (phase (app (worldAfter toAwaitingDevice)))
   <= phaseRank (phase (app (worldAfter (toAwaitingDevice
                                           ++ [Fire 0 deniedBrowser])))))%nat.
Proof.
  apply (X5_intro_and_loading_are_passed_once
           [Fire 0 deniedBrowser]
           (worldAfter toAwaitingDevice)
           (worldAfter (toAwaitingDevice ++ [Fire 0 deniedBrowser]))).
  vm_compute. reflexivity.
Defined.

(** ** Custody of the camera stream *)

Lemma countdown_callback_keeps_stream i closureFilter b w :
  stream (app (exec (runCallback (CountdownResume i closureFilter) b) w))
  = stream (app w) /\
  stoppedTracks (exec (runCallback (CountdownResume i closureFilter) b) w)
  = stoppedTracks w.
Proof.
  unfold runCallback, handlePhotoCapture_loop.
  destruct (nth_error countdownSequence (S i)); [split; reflexivity |].
  unfold exec, handlePhotoCapture_finish, bind, captureCurrentFrameM.
  cbn [setCountdown modifyApp canvas app now pending alerts stoppedTracks].
  destruct (captureCurrentFrame closureFilter (captureEnv b) (canvas w))
    as [photoData c'].
  destruct (isTruthy photoData); [| split; reflexivity].
  unfold setCapturedPhotos, appendPhoto, bind, getApp, Date_now.
  cbn [app now capturedPhotos withCountdown].
  destruct (List.length _ =? 3)%nat; split; reflexivity.
Qed.

(** Only the acquisition callback changes the stream, and when it does it
    stops every track of the stream held before. *)
Lemma step_stream (ev : Event) (w w' : World) :
  step ev w = Some w' ->
  (stream (app w') = stream (app w) /\ stoppedTracks w' = stoppedTracks w) \/
  (exists k b due mediaStream,
      ev = Fire k b /\
      nth_error (pending w) k = Some (due, GetUserMediaSettled) /\
      stream (app w') = Some mediaStream /\
      stoppedTracks w'
      = stoppedTracks w ++ match stream (app w) with
                           | Some held => getTracks held
                           | None => []
                           end).
Proof.
  intros Hstep.
  destruct ev as [| | flt' | | k b]; unfold step in Hstep.
  - destruct (SessionPhase_eqb _ _); [| discriminate].
    injection Hstep as <-. left. split; reflexivity.
  - destruct (_ && _); [| discriminate]. injection Hstep as <-.
    unfold exec, handlePhotoCapture, bind, getApp.
    destruct (_ || _); left; split; reflexivity.
  - destruct (SessionPhase_eqb _ _); [| discriminate].
    injection Hstep as <-. left. split; reflexivity.
  - destruct (SessionPhase_eqb _ _); [| discriminate].
    injection Hstep as <-. left. split; reflexivity.
  - destruct (dequeue k w) as [[cb w1] |] eqn:Hdq; [| discriminate].
    destruct (dequeue_spec k w cb w1 Hdq)
      as (due & Hk & Happ & _ & _ & _ & _ & Hst).
    injection Hstep as <-.
    destruct cb as [| | createdAt | i closureFilter |].
    + left. rewrite <- Happ, <- Hst.
      unfold runCallback, openCurtains, requestCameraAccess.
      destruct (mediaDevices_getUserMedia b); split; reflexivity.
    + unfold runCallback, requestCameraAccess_afterLoop.
      destruct (tryConfigs _ _ _) as [[mediaStream |] lastError].
      * right. exists k, b, due, mediaStream. rewrite <- Happ, <- Hst.
        destruct (videoRef_attached b); repeat split; auto.
      * left. rewrite <- Happ, <- Hst. split; reflexivity.
    + left. rewrite <- Happ, <- Hst.
      unfold runCallback, requestCameraAccess_afterVideo.
      destruct (videoOutcome b); split; reflexivity.
    + left. rewrite <- Happ, <- Hst. apply countdown_callback_keeps_stream.
    + left. rewrite <- Happ, <- Hst. split; reflexivity.
Qed.

Lemma run_releases_dropped_streams (evs : list Event) : forall (w w' : World),
  run evs w = Some w' ->
  (forall t, In t (stoppedTracks w) -> In t (stoppedTracks w')) /\
  (forall held t,
      In held (streamsHeld evs w) -> In t (getTracks held) ->
      stream (app w') = Some held \/ In t (stoppedTracks w')).
Proof.
  induction evs as [| ev rest IH]; intros w w' Hrun; cbn [run] in Hrun.
  - injection Hrun as <-. split; [auto |].
    intros held t Hheld Ht. cbn in Hheld. rewrite app_nil_r in Hheld.
    destruct (stream (app w)) as [ms |]; [| contradiction].
    destruct Hheld as [<- | []]. left. reflexivity.
  - destruct (step ev w) as [w1 |] eqn:Hstep; [| discriminate].
    destruct (IH w1 w' Hrun) as (Hmono & Hheld1).
    assert (Hmono1 : forall t, In t (stoppedTracks w) -> In t (stoppedTracks w1)).
    { intros t Ht.
      destruct (step_stream ev w w1 Hstep)
        as [(_ & ->) | (k & b & due & ms & _ & _ & _ & ->)]; [exact Ht |].
      apply in_or_app. left. exact Ht. }
    split; [auto |].
    intros held t Hheld Ht. cbn [streamsHeld] in Hheld. rewrite Hstep in Hheld.
    apply in_app_or in Hheld. destruct Hheld as [Hnow | Hlater];
      [| apply (Hheld1 held t Hlater Ht)].
    destruct (stream (app w)) as [ms |] eqn:Hs; [| contradiction].
    destruct Hnow as [<- | []].
    destruct (step_stream ev w w1 Hstep)
      as [(Hkeep & _) | (k & b & due & ms' & _ & _ & _ & Hrel)].
    + apply (Hheld1 ms t); [| exact Ht].
      destruct rest; cbn [streamsHeld]; rewrite Hkeep, Hs; left; reflexivity.
    + right. apply Hmono. rewrite Hrel, Hs. apply in_or_app. right. exact Ht.
Qed.

(** X6. Over any sequence of clicks and callbacks, every track of every
    stream the component held at some point of the run has been stopped,
    unless that stream is still the held one; and the cleanup that runs at
    unmount stops the tracks of the held one.  So every stream that was
    held up to the unmount is stopped by then.  (A [getUserMedia] request
    that settles only after the unmount is not covered.) *)
Theorem X6_streams_held_are_stopped_by_unmount (evs : list Event) (w w' : World)
        (held : MediaStream) (t : nat) :
  run evs w = Some w' ->
  In held (streamsHeld evs w) ->
  In t (getTracks held) ->
  (stream (app w') = Some held \/ In t (stoppedTracks w')) /\
  In t (stoppedTracks (exec unmount w')).
Proof.
  intros Hrun Hheld Ht.
  destruct (run_releases_dropped_streams evs w w' Hrun) as (_ & Hcustody).
  specialize (Hcustody held t Hheld Ht).
  split; [exact Hcustody |].
  unfold exec, unmount. cbn [snd stoppedTracks]. apply in_or_app.
  destruct Hcustody as [-> | Hstopped]; [right; exact Ht | left; exact Hstopped].
Qed.

Lemma X6_streams_held_are_stopped_by_unmount_witness :
  In 10%nat (stoppedTracks (exec unmount (worldAfter toReviewing))).
Proof.
  apply (X6_streams_held_are_stopped_by_unmount toReviewing initialWorld
           (worldAfter toReviewing) sampleStream 10%nat).
  - vm_compute. reflexivity.
  - vm_compute. left. reflexivity.
  - vm_compute. left. reflexivity.
Defined.

(** ** The countdown and the still it ends with *)

(** The four resumptions of a capture that is waiting at its first stage,
    when nothing else is queued behind it: the display goes through the
    remaining stages, a second apart, and the frame is read at the fourth. *)
Lemma countdown_runs_to_the_frame s t p al c st closureFilter b :
  run [Fire (List.length p) b; Fire (List.length p) b; Fire (List.length p) b]
      (mkWorld s t (p ++ [(t + 1000, CountdownResume 0 closureFilter)]) al c st)
  = Some (mkWorld (withCountdown (Some "Smile...") s) (t + 3000)
                  (p ++ [(t + 4000, CountdownResume 3 closureFilter)]) al c st)
  /\
  step (Fire (List.length p) b)
       (mkWorld (withCountdown (Some "Smile...") s) (t + 3000)
                (p ++ [(t + 4000, CountdownResume 3 closureFilter)]) al c st)
  = Some (exec (handlePhotoCapture_finish closureFilter (captureEnv b))
               (mkWorld (withCountdown (Some "Smile...") s) (t + 4000) p al c st)).
Proof.
  split.
  - cbn [run]. rewrite step_fire_last.
    cbn -[Z.add Z.max step]. rewrite step_fire_last.
    cbn -[Z.add Z.max step]. rewrite step_fire_last.
    cbn -[Z.add Z.max step].
    replace (Z.max (Z.max (Z.max t (t + 1000)) (Z.max t (t + 1000) + 1000))
                   (Z.max (Z.max t (t + 1000)) (Z.max t (t + 1000) + 1000) + 1000))
      with (t + 3000) by lia.
    replace (t + 3000 + 1000) with (t + 4000) by lia.
    destruct s; reflexivity.
  - rewrite step_fire_last.
    replace (Z.max (t + 3000) (t + 4000)) with (t + 4000) by lia.
    reflexivity.
Qed.

(** What the last resumption of [handlePhotoCapture] does when the frame is
    read and encoded. *)
Lemma finish_available closureFilter env w :
  surfaceUnavailable env = false ->
  toDataURL env <> EmptyString ->
  exec (handlePhotoCapture_finish closureFilter env) w
  = mkWorld (withIsCapturing false
               (withCapturedPhotos
                  (capturedPhotos (app w) ++ [mkPhoto (toDataURL env) (now w)])
                  (withCountdown None (app w))))
            (now w)
            (pending w
             ++ if (List.length (capturedPhotos (app w)) =? 2)%nat
                then [(now w + 500, ShowPhotoStrip)] else [])
            (alerts w)
            (snd (captureCurrentFrame closureFilter env (canvas w)))
            (stoppedTracks w).
Proof.
  intros Hav Hurl.
  unfold exec, handlePhotoCapture_finish, bind, captureCurrentFrameM.
  cbn [setCountdown modifyApp canvas app now pending alerts stoppedTracks].
  pose proof (captureCurrentFrame_available closureFilter env (canvas w) Hav) as Hfst.
  destruct (captureCurrentFrame closureFilter env (canvas w)) as [photoData c'].
  cbn [fst snd] in *. subst photoData. cbn [isTruthy].
  destruct (String.eqb_spec (toDataURL env) EmptyString) as [Heq | _];
    [contradiction |].
  cbn [negb]. unfold setCapturedPhotos, appendPhoto, bind, getApp, Date_now.
  cbn [app now capturedPhotos withCountdown].
  rewrite length_app. cbn [List.length].
  replace (List.length (capturedPhotos (app w)) + 1 =? 3)%nat
    with (List.length (capturedPhotos (app w)) =? 2)%nat.
  2: { destruct (Nat.eqb_spec (List.length (capturedPhotos (app w))) 2),
         (Nat.eqb_spec (List.length (capturedPhotos (app w)) + 1) 3);
         (reflexivity || lia). }
  destruct (List.length (capturedPhotos (app w)) =? 2)%nat;
    cbn -[Z.add]; rewrite ?app_nil_r; reflexivity.
Qed.

(** A whole capture whose frame is read and encoded, run without anything
    else in between. *)
Lemma oneCapture_available w b :
  step ClickShutter w <> None ->
  surfaceUnavailable (captureEnv b) = false ->
  toDataURL (captureEnv b) <> EmptyString ->
  run (oneCapture (List.length (pending w)) b) w
  = Some (mkWorld
            (withCapturedPhotos
               (capturedPhotos (app w)
                ++ [mkPhoto (toDataURL (captureEnv b)) (now w + 4000)])
               (withCountdown None (app w)))
            (now w + 4000)
            (pending w
             ++ if (List.length (capturedPhotos (app w)) =? 2)%nat
                then [(now w + 4000 + 500, ShowPhotoStrip)] else [])
            (alerts w)
            (snd (captureCurrentFrame (currentFilter (app w)) (captureEnv b)
                                      (canvas w)))
            (stoppedTracks w)).
Proof.
  intros Hacc Hav Hurl.
  pose proof (click_starts_capture w Hacc) as Hclick.
  apply shutter_accepted in Hacc. destruct Hacc as (_ & _ & _ & Hcap & _).
  destruct w as [s t p al c st]. cbn [app now pending alerts canvas stoppedTracks] in *.
  unfold oneCapture.
  change [ClickShutter; Fire (List.length p) b; Fire (List.length p) b;
          Fire (List.length p) b; Fire (List.length p) b]
    with ([ClickShutter]
          ++ [Fire (List.length p) b; Fire (List.length p) b; Fire (List.length p) b]
          ++ [Fire (List.length p) b]).
  rewrite run_app. cbn [run]. rewrite Hclick.
  destruct (countdown_runs_to_the_frame
              (withCountdown (Some "3...") (withIsCapturing true s))
              t p al c st (currentFilter s) b) as (Hstages & Hlast).
  rewrite run_app, Hstages. cbn [run]. rewrite Hlast.
  rewrite (finish_available _ _ _ Hav Hurl).
  destruct s. cbn -[Z.add] in *. subst. reflexivity.
Qed.

(** X7. A capture that nothing interrupts shows the stages "3...", "2...",
    "1...", "Smile..." in this order, one second each, with the capture
    flag set throughout; the frame is read four seconds after the click.
    When it can be read, exactly one still is appended, stamped with that
    moment, the display and the flag are cleared, and the switch to the
    strip is scheduled (half a second later) exactly when it is the third
    still. *)
Theorem X7_countdown_four_stages_then_one_still (w : World) (b : Browser) :
  step ClickShutter w <> None ->
  surfaceUnavailable (captureEnv b) = false ->
  toDataURL (captureEnv b) <> EmptyString ->
  (forall j stage,
      nth_error countdownSequence j = Some stage ->
      exists wj,
        run (firstn (S j) (oneCapture (List.length (pending w)) b)) w = Some wj /\
        countdown (app wj) = Some stage /\
        isCapturing (app wj) = true /\
        now wj = now w + 1000 * Z.of_nat j /\
        capturedPhotos (app wj) = capturedPhotos (app w)) /\
  exists w',
    run (oneCapture (List.length (pending w)) b) w = Some w' /\
    now w' = now w + 4000 /\
    capturedPhotos (app w')
    = capturedPhotos (app w)
      ++ [mkPhoto (toDataURL (captureEnv b)) (now w + 4000)] /\
    countdown (app w') = None /\
    isCapturing (app w') = false /\
    pending w'
    = pending w
      ++ (if (List.length (capturedPhotos (app w)) =? 2)%nat
          then [(now w + 4000 + 500, ShowPhotoStrip)] else []).
Proof.
  intros Hacc Hav Hurl.
  pose proof (click_starts_capture w Hacc) as Hclick.
  destruct w as [s t p al c st]. cbn [app now pending alerts canvas stoppedTracks] in *.
  pose proof Hacc as Hacc'.
  split.
  - intros j stage Hj.
    destruct j as [| [| [| [| j]]]]; cbn in Hj; try (destruct j; discriminate);
      injection Hj as <-; cbn [firstn oneCapture run]; rewrite Hclick;
      repeat (rewrite step_fire_last; cbn -[Z.add Z.max step Z.mul Z.of_nat]);
      eexists; (split; [reflexivity |]); cbn -[Z.add Z.max Z.mul];
      repeat split; try reflexivity; lia.
  - eexists. split; [apply (oneCapture_available _ b Hacc' Hav Hurl) |].
    cbn -[Z.add]. apply shutter_accepted in Hacc'.
    destruct Hacc' as (_ & _ & _ & Hcap & _). cbn in Hcap.
    repeat split; try reflexivity. exact Hcap.
Qed.

Lemma X7_countdown_four_stages_then_one_still_witness :
  exists w',
    run (oneCapture 0 workingBrowser) (worldAfter toLive) = Some w' /\
    now w' = 2000 + 4000 /\
    capturedPhotos (app w') = [mkPhoto "data:image/jpeg;base64,AAAA" (2000 + 4000)].
Proof.
  assert (Hacc : step ClickShutter (worldAfter toLive) <> None)
    by (vm_compute; discriminate).
  assert (Hav : surfaceUnavailable (captureEnv workingBrowser) = false)
    by (vm_compute; reflexivity).
  assert (Hurl : toDataURL (captureEnv workingBrowser) <> EmptyString)
    by (vm_compute; discriminate).
  destruct (X7_countdown_four_stages_then_one_still
              (worldAfter toLive) workingBrowser Hacc Hav Hurl)
    as (_ & w' & Hrun & Hnow & Hphotos & _).
  exists w'. refine (conj Hrun (conj _ _)).
  - rewrite Hnow. vm_compute. reflexivity.
  - rewrite Hphotos. vm_compute. reflexivity.
Defined.

(** Different filters have different CSS. *)
Lemma selectedFilterOf_injective (f g : FilterType) :
  selectedFilterOf f = selectedFilterOf g -> f = g.
Proof.
  destruct f, g; intros H; try reflexivity; vm_compute in H; discriminate H.
Qed.

(** X8. The filter of a still is the one that was selected when the
    shutter was clicked.  If another filter is selected during the
    countdown, the selection (and so the preview) changes at once, but the
    frame read four seconds later is still drawn with the filter of the
    click, which is then not the one the preview shows. *)
Theorem X8_still_keeps_the_filter_of_the_click
        (w : World) (b : Browser) (chosen : FilterType) :
  step ClickShutter w <> None ->
  surfaceUnavailable (captureEnv b) = false ->
  toDataURL (captureEnv b) <> EmptyString ->
  exists w',
    run ([ClickShutter; ClickFilter chosen]
         ++ [Fire (List.length (pending w)) b; Fire (List.length (pending w)) b;
             Fire (List.length (pending w)) b; Fire (List.length (pending w)) b])
        w = Some w' /\
    currentFilter (app w') = chosen /\
    List.length (capturedPhotos (app w')) = S (List.length (capturedPhotos (app w))) /\
    map (fun dr => Canvas.filter (Canvas.drawnWith dr)) (Canvas.bitmap (canvas w'))
    = [selectedFilterOf (currentFilter (app w))] /\
    (chosen <> currentFilter (app w) ->
     map (fun dr => Canvas.filter (Canvas.drawnWith dr)) (Canvas.bitmap (canvas w'))
     <> [selectedFilterOf (currentFilter (app w'))]).
Proof.
  intros Hacc Hav Hurl.
  pose proof (click_starts_capture w Hacc) as Hclick.
  apply shutter_accepted in Hacc.
  destruct Hacc as (Hcur & Hload & Hstrip & Hcap & Hlen).
  destruct w as [s t p al c st]. cbn [app now pending alerts canvas stoppedTracks] in *.
  cbn [List.app run]. rewrite Hclick.
  assert (Hfilter :
            step (ClickFilter chosen)
                 (mkWorld (withCountdown (Some "3...") (withIsCapturing true s)) t
                          (p ++ [(t + 1000, CountdownResume 0 (currentFilter s))])
                          al c st)
            = Some (mkWorld (withCurrentFilter chosen
                               (withCountdown (Some "3...") (withIsCapturing true s)))
                            t (p ++ [(t + 1000, CountdownResume 0 (currentFilter s))])
                            al c st)).
  { unfold step, phase. cbn. rewrite Hcur, Hload, Hstrip. reflexivity. }
  rewrite Hfilter.
  destruct (countdown_runs_to_the_frame
              (withCurrentFilter chosen
                 (withCountdown (Some "3...") (withIsCapturing true s)))
              t p al c st (currentFilter s) b) as (Hstages & Hlast).
  cbn [run] in Hstages.
  destruct (step (Fire (List.length p) b) _) as [w1 |]; [| discriminate].
  destruct (step (Fire (List.length p) b) w1) as [w2 |]; [| discriminate].
  destruct (step (Fire (List.length p) b) w2) as [w3 |]; [| discriminate].
  injection Hstages as ->. rewrite Hlast.
  rewrite (finish_available _ _ _ Hav Hurl).
  eexists. split; [reflexivity |].
  cbn [app canvas currentFilter capturedPhotos withIsCapturing withCapturedPhotos
       withCountdown withCurrentFilter].
  assert (Hbitmap :
            map (fun dr => Canvas.filter (Canvas.drawnWith dr))
                (Canvas.bitmap (snd (captureCurrentFrame (currentFilter s)
                                       (captureEnv b) c)))
            = [selectedFilterOf (currentFilter s)]).
  { unfold surfaceUnavailable in Hav. unfold captureCurrentFrame.
    destruct (videoRef_current (captureEnv b)); [| discriminate].
    destruct (canvasRef_current (captureEnv b)); [| discriminate].
    destruct (getContext_2d (captureEnv b)); [| discriminate].
    reflexivity. }
  split; [reflexivity |]. split; [rewrite length_app; cbn; lia |].
  split; [exact Hbitmap |].
  intros Hneq Heq. rewrite Hbitmap in Heq. injection Heq as Heq.
  apply selectedFilterOf_injective in Heq. congruence.
Qed.

Lemma X8_still_keeps_the_filter_of_the_click_witness :
  exists w',
    run ([ClickShutter; ClickFilter Noir]
         ++ [Fire 0 workingBrowser; Fire 0 workingBrowser;
             Fire 0 workingBrowser; Fire 0 workingBrowser])
        (worldAfter toLive) = Some w' /\
    currentFilter (app w') = Noir /\
    map (fun dr => Canvas.filter (Canvas.drawnWith dr)) (Canvas.bitmap (canvas w'))
    = [selectedFilterOf F2000s].
Proof.
  assert (Hacc : step ClickShutter (worldAfter toLive) <> None)
    by (vm_compute; discriminate).
  assert (Hav : surfaceUnavailable (captureEnv workingBrowser) = false)
    by (vm_compute; reflexivity).
  assert (Hurl : toDataURL (captureEnv workingBrowser) <> EmptyString)
    by (vm_compute; discriminate).
  destruct (X8_still_keeps_the_filter_of_the_click
              (worldAfter toLive) workingBrowser Noir Hacc Hav Hurl)
    as (w' & Hrun & Hsel & _ & Hbitmap & _).
  exists w'. exact (conj Hrun (conj Hsel Hbitmap)).
Defined.

(** ** The capture flag and the countdown display *)

Lemma countdown_callback_display i closureFilter b w :
  let w' := exec (runCallback (CountdownResume i closureFilter) b) w in
  (exists stage, countdown (app w') = Some stage /\
                 isCapturing (app w') = isCapturing (app w)) \/
  (countdown (app w') = None /\ isCapturing (app w') = false).
Proof.
  cbv zeta. unfold runCallback, handlePhotoCapture_loop.
  destruct (nth_error countdownSequence (S i)) as [stage |].
  - left. exists stage. split; reflexivity.
  - right. split; [| apply finish_clears_isCapturing].
    unfold exec, handlePhotoCapture_finish, bind, captureCurrentFrameM.
    cbn [setCountdown modifyApp canvas app now pending alerts stoppedTracks].
    destruct (captureCurrentFrame closureFilter (captureEnv b) (canvas w))
      as [photoData c'].
    destruct (isTruthy photoData); [| reflexivity].
    unfold setCapturedPhotos, appendPhoto, bind, getApp, Date_now.
    cbn [app now capturedPhotos withCountdown].
    destruct (List.length _ =? 3)%nat; reflexivity.
Qed.

Lemma step_keeps_display_in_step (ev : Event) (w w' : World) :
  Inv w ->
  (isCapturing (app w) = true <-> countdown (app w) <> None) ->
  step ev w = Some w' ->
  (isCapturing (app w') = true <-> countdown (app w') <> None).
Proof.
  intros HI Hd Hstep.
  destruct HI as (_ & Hfl & _ & Hcap & _ & Hstrip).
  destruct ev as [| | flt' | | k b]; unfold step in Hstep.
  - destruct (SessionPhase_eqb _ _); [| discriminate].
    injection Hstep as <-. exact Hd.
  - destruct (_ && _); [| discriminate]. injection Hstep as <-.
    unfold exec, handlePhotoCapture, bind, getApp.
    destruct (_ || _); cbn; [exact Hd |]. split; [discriminate | reflexivity].
  - destruct (SessionPhase_eqb _ _); [| discriminate].
    injection Hstep as <-. exact Hd.
  - destruct (SessionPhase_eqb (phase (app w)) Reviewing) eqn:Hp; [| discriminate].
    injection Hstep as <-. cbn.
    assert (Hs : showPhotoStrip (app w) = true).
    { unfold phase in Hp.
      destruct (showCurtains (app w)), (isLoading (app w)),
        (showPhotoStrip (app w)); (discriminate || reflexivity). }
    destruct (isCapturing (app w)) eqn:Hc.
    + destruct (Hcap eq_refl) as (_ & Hoff & _). congruence.
    + split; [discriminate | congruence].
  - destruct (dequeue k w) as [[cb w1] |] eqn:Hdq; [| discriminate].
    destruct (dequeue_spec k w cb w1 Hdq) as (due & Hk & Happ & _).
    injection Hstep as <-.
    destruct cb as [| | createdAt | i closureFilter |].
    4: { pose proof (pending_counted isCountdownResume _ _ _ Hk eq_refl) as Hone.
         fold (inFlight w) in Hone.
         destruct (isCapturing (app w)) eqn:Hc; [| lia].
         destruct (countdown_callback_display i closureFilter b w1)
           as [(stage & Hcd & Hsame) | (Hcd & Hoff)].
         - rewrite Hcd, Hsame, Happ, Hc. split; [discriminate | reflexivity].
         - rewrite Hcd, Hoff. split; [discriminate | congruence]. }
    4: { cbn. rewrite Happ. exact Hd. }
    1: pose proof (camera_callback_frame OpenCurtains b w1 I) as Hf.
    2: pose proof (camera_callback_frame GetUserMediaSettled b w1 I) as Hf.
    3: pose proof (camera_callback_frame (VideoSettled createdAt) b w1 I) as Hf.
    all: cbv zeta in Hf; destruct Hf as (_ & _ & Hc & Hcd & _);
      rewrite Hc, Hcd, Happ; exact Hd.
Qed.

Lemma reachable_display (w : World) :
  reachable w -> (isCapturing (app w) = true <-> countdown (app w) <> None).
Proof.
  intros (evs & Hrun).
  assert (Hgen : forall evs w0 w1,
             Inv w0 ->
             (isCapturing (app w0) = true <-> countdown (app w0) <> None) ->
             run evs w0 = Some w1 ->
             (isCapturing (app w1) = true <-> countdown (app w1) <> None)).
  { clear. induction evs as [| ev rest IH]; intros w0 w1 HI Hd Hrun;
      cbn [run] in Hrun.
    - injection Hrun as <-. exact Hd.
    - destruct (step ev w0) as [w2 |] eqn:Hstep; [| discriminate].
      apply (IH w2 w1); [| | exact Hrun].
      + apply (step_preserves_Inv ev w0 w2 HI Hstep).
      + apply (step_keeps_display_in_step ev w0 w2 HI Hd Hstep). }
  apply (Hgen evs initialWorld w Inv_initialWorld); [| exact Hrun].
  cbn. split; [discriminate | congruence].
Qed.

(** X9. At every point of a session at most one [handlePhotoCapture] call
    is suspended, and [isCapturing] is set exactly while there is one; the
    countdown overlay is on screen exactly then; and this only happens in
    the live view, with fewer than three stills. *)
Theorem X9_one_capture_at_a_time_with_its_countdown (w : World) :
  reachable w ->
  (inFlight w <= 1)%nat /\
  (isCapturing (app w) = true <-> inFlight w = 1%nat) /\
  (isCapturing (app w) = true <-> countdown (app w) <> None) /\
  (isCapturing (app w) = true ->
   phase (app w) = Live /\ (List.length (capturedPhotos (app w)) < 3)%nat).
Proof.
  intros Hr. pose proof (reachable_Inv w Hr) as (_ & Hfl & _ & Hcap & _).
  split; [| split; [| split]].
  - rewrite Hfl. destruct (isCapturing (app w)); lia.
  - rewrite Hfl. destruct (isCapturing (app w)); split; (congruence || lia).
  - apply (reachable_display w Hr).
  - intros Hc. destruct (Hcap Hc) as (Hlen & Hoff & _ & Hcur & Hload).
    split; [| exact Hlen]. unfold phase. rewrite Hcur, Hload, Hoff. reflexivity.
Qed.

Lemma X9_one_capture_at_a_time_with_its_countdown_witness :
  reachable (worldAfter (toLive ++ [ClickShutter; Fire 0 workingBrowser])) /\
  inFlight (worldAfter (toLive ++ [ClickShutter; Fire 0 workingBrowser])) = 1%nat /\
  countdown (app (worldAfter (toLive ++ [ClickShutter; Fire 0 workingBrowser])))
  <> None.
Proof.
  assert (Hr : reachable (worldAfter (toLive ++ [ClickShutter; Fire 0 workingBrowser]))).
  { exists (toLive ++ [ClickShutter; Fire 0 workingBrowser]). vm_compute. reflexivity. }
  destruct (X9_one_capture_at_a_time_with_its_countdown _ Hr)
    as (_ & Hflight & Hdisplay & _).
  assert (Hc : isCapturing (app (worldAfter (toLive ++ [ClickShutter; Fire 0 workingBrowser])))
               = true) by (vm_compute; reflexivity).
  exact (conj Hr (conj (proj1 Hflight Hc) (proj1 Hdisplay Hc))).
Defined.

(** X10. Reshoot starts the session over: when the click is delivered (it
    only is on the strip view), there is no capture in progress and no
    switch to the strip pending, and afterwards the stills are gone, the
    live view is shown, the strip is not re-rendered, and the shutter is
    enabled again. *)
Theorem X10_reshoot_starts_over (w w' : World) :
  reachable w ->
  step ClickReshoot w = Some w' ->
  phase (app w) = Reviewing /\
  inFlight w' = 0%nat /\ showScheduled w' = 0%nat /\
  capturedPhotos (app w') = [] /\
  phase (app w') = Live /\
  photoStripEffect (app w') = None /\
  step ClickShutter w' <> None.
Proof.
  intros Hr Hstep. pose proof (reachable_Inv w Hr) as (_ & Hfl & Hss & Hcap & Hsched & Hstrip).
  unfold step in Hstep.
  destruct (SessionPhase_eqb (phase (app w)) Reviewing) eqn:Hp; [| discriminate].
  injection Hstep as <-.
  assert (Hphase : phase (app w) = Reviewing)
    by (destruct (phase (app w)); (discriminate || reflexivity)).
  assert (Hs : showPhotoStrip (app w) = true).
  { unfold phase in Hphase.
    destruct (showCurtains (app w)), (isLoading (app w)),
      (showPhotoStrip (app w)); (discriminate || reflexivity). }
  destruct (Hstrip Hs) as (_ & Hcur & Hload).
  assert (Hc : isCapturing (app w) = false).
  { destruct (isCapturing (app w)); [| reflexivity].
    destruct (Hcap eq_refl) as (_ & Hoff & _). congruence. }
  assert (Hnone : showScheduled w = 0%nat).
  { destruct (Nat.eq_dec (showScheduled w) 1) as [Hone | Hne]; [| lia].
    destruct (Hsched Hone) as (_ & Hoff & _). congruence. }
  rewrite Hc in Hfl.
  split; [exact Hphase |].
  split; [exact Hfl |]. split; [exact Hnone |]. split; [reflexivity |].
  split; [unfold phase; cbn; rewrite Hcur, Hload; reflexivity |].
  split; [reflexivity |].
  apply shutter_accepted. cbn. auto with arith.
Qed.

Lemma X10_reshoot_starts_over_witness :
  step ClickReshoot (worldAfter toReviewing)
  = Some (worldAfter (toReviewing ++ [ClickReshoot])) /\
  capturedPhotos (app (worldAfter (toReviewing ++ [ClickReshoot]))) = [] /\
  step ClickShutter (worldAfter (toReviewing ++ [ClickReshoot])) <> None.
Proof.
  assert (Hr : reachable (worldAfter toReviewing)).
  { exists toReviewing. vm_compute. reflexivity. }
  assert (Hstep : step ClickReshoot (worldAfter toReviewing)
                  = Some (worldAfter (toReviewing ++ [ClickReshoot])))
    by (vm_compute; reflexivity).
  destruct (X10_reshoot_starts_over _ _ Hr Hstep)
    as (_ & _ & _ & Hphotos & _ & _ & Hshutter).
  exact (conj Hstep (conj Hphotos Hshutter)).
Defined.

(** ** A whole session *)

(** X11. From the live view with no stills, three captures in a row, each
    read and encoded, followed by the scheduled callback, end in the strip
    view 12.5 seconds after the first click, with the three stills in the
    order they were taken (4, 8 and 12 seconds after that click) and the
    shutter out of reach; the render effect then schedules
    [createPhotoStrip] with these stills, which, given its canvas, starts
    decoding one image per still, in capture order. *)
Theorem X11_three_captures_end_in_the_strip_view (w : World) (b : Browser) :
  step ClickShutter w <> None ->
  capturedPhotos (app w) = [] ->
  surfaceUnavailable (captureEnv b) = false ->
  toDataURL (captureEnv b) <> EmptyString ->
  let url := toDataURL (captureEnv b) in
  let stills := [mkPhoto url (now w + 4000); mkPhoto url (now w + 8000);
                 mkPhoto url (now w + 12000)] in
  exists w',
    run (threeCapturesThenStrip (List.length (pending w)) b) w = Some w' /\
    phase (app w') = Reviewing /\
    now w' = now w + 12500 /\
    capturedPhotos (app w') = stills /\
    pending w' = pending w /\
    step ClickShutter w' = None /\
    photoStripEffect (app w') = Some (100, stills) /\
    exists r0,
      Strip.createPhotoStrip true true stills = Some r0 /\
      Strip.decoding r0
      = [Strip.mkImage 0 url; Strip.mkImage 1 url; Strip.mkImage 2 url].
Proof.
  intros Hacc Hempty Hav Hurl. cbv zeta.
  pose proof Hacc as Hacc0. apply shutter_accepted in Hacc0.
  destruct Hacc0 as (Hcur & Hload & Hstrip & Hcap & _).
  unfold threeCapturesThenStrip.
  rewrite run_app, (oneCapture_available w b Hacc Hav Hurl).
  rewrite Hempty. cbn [List.length Nat.eqb List.app]. rewrite app_nil_r.
  set (w1 := mkWorld _ _ _ _ _ _).
  assert (Hacc1 : step ClickShutter w1 <> None).
  { apply shutter_accepted. subst w1. cbn. repeat split; auto. }
  change (List.length (pending w)) with (List.length (pending w1)) at 1.
  rewrite run_app, (oneCapture_available w1 b Hacc1 Hav Hurl).
  subst w1. cbn [app now pending alerts canvas stoppedTracks capturedPhotos
                 withCapturedPhotos withCountdown List.length Nat.eqb List.app
                 currentFilter].
  rewrite app_nil_r.
  set (w2 := mkWorld _ _ _ _ _ _).
  assert (Hacc2 : step ClickShutter w2 <> None).
  { apply shutter_accepted. subst w2. cbn. repeat split; auto. }
  change (List.length (pending w)) with (List.length (pending w2)) at 1.
  rewrite run_app, (oneCapture_available w2 b Hacc2 Hav Hurl).
  subst w2. cbn [app now pending alerts canvas stoppedTracks capturedPhotos
                 withCapturedPhotos withCountdown List.length Nat.eqb List.app
                 currentFilter].
  cbn [run]. rewrite step_fire_last.
  eexists. split; [reflexivity |].
  cbn [app now pending alerts canvas stoppedTracks exec snd runCallback
       setShowPhotoStrip modifyApp].
  replace (now w + 4000 + 4000) with (now w + 8000) by lia.
  replace (now w + 8000 + 4000) with (now w + 12000) by lia.
  set (stills := [mkPhoto _ _; mkPhoto _ _; mkPhoto _ _]).
  assert (Hphase : forall s0,
             showCurtains s0 = false -> isLoading s0 = false ->
             phase (withShowPhotoStrip true s0) = Reviewing).
  { intros s0 Hc0 Hl0. unfold phase. cbn. rewrite Hc0, Hl0. reflexivity. }
  split; [apply Hphase; cbn; assumption |].
  split; [lia |]. split; [reflexivity |]. split; [reflexivity |].
  split.
  { unfold step. cbn [app]. rewrite Hphase by (cbn; assumption). reflexivity. }
  split; [reflexivity |].
  eexists. split; reflexivity.
Qed.

Lemma X11_three_captures_end_in_the_strip_view_witness :
  exists w',
    run (threeCapturesThenStrip 0 workingBrowser) (worldAfter toLive) = Some w' /\
    phase (app w') = Reviewing /\
    now w' = 2000 + 12500.
Proof.
  assert (Hacc : step ClickShutter (worldAfter toLive) <> None)
    by (vm_compute; discriminate).
  assert (Hempty : capturedPhotos (app (worldAfter toLive)) = [])
    by (vm_compute; reflexivity).
  assert (Hav : surfaceUnavailable (captureEnv workingBrowser) = false)
    by (vm_compute; reflexivity).
  assert (Hurl : toDataURL (captureEnv workingBrowser) <> EmptyString)
    by (vm_compute; discriminate).
  destruct (X11_three_captures_end_in_the_strip_view
              (worldAfter toLive) workingBrowser Hacc Hempty Hav Hurl)
    as (w' & Hrun & Hphase & Hnow & _).
  exists w'. refine (conj Hrun (conj Hphase _)).
  rewrite Hnow. vm_compute. reflexivity.
Defined.

(** ** The composite renderer on any sequence of decode completions *)

Lemma forEachPhoto_indices photos start :
  map Strip.index (Strip.forEachPhoto photos start)
  = seq start (List.length photos).
Proof.
  revert start. induction photos as [| photo rest IH]; intros start; cbn.
  - reflexivity.
  - rewrite IH. reflexivity.
Qed.

(** Taking the image of index [i] out of the images still decoding removes
    exactly that one. *)
Lemma decoding_minus_one (i : nat) (l : list Strip.Image) (img : Strip.Image) :
  NoDup (map Strip.index l) ->
  find (Strip.stillDecoding i) l = Some img ->
  let rest := List.filter (fun img' => negb (Strip.stillDecoding i img')) l in
  S (List.length rest) = List.length l /\
  NoDup (map Strip.index rest) /\
  (forall img', In img' rest -> In img' l).
Proof.
  cbv zeta. induction l as [| hd tl IH]; intros Hnd Hfind; [discriminate |].
  cbn [map] in Hnd. apply NoDup_cons_iff in Hnd. destruct Hnd as (Hnotin & Hnd).
  cbn [find List.filter] in *. unfold Strip.stillDecoding in *.
  destruct (Nat.eqb_spec (Strip.index hd) i) as [Heq | Hne]; cbn [negb].
  - assert (Hall : List.filter (fun img' => negb (Strip.index img' =? i)%nat) tl = tl).
    { apply forallb_filter_id. apply forallb_forall. intros x Hx.
      destruct (Nat.eqb_spec (Strip.index x) i) as [Hxi |]; [| reflexivity].
      exfalso. apply Hnotin. rewrite Heq, <- Hxi. apply in_map. exact Hx. }
    rewrite Hall. repeat split; auto. intros img' Hin. right. exact Hin.
  - destruct (IH Hnd Hfind) as (Hlen & Hnd' & Hsub).
    cbn [List.length map]. repeat split.
    + lia.
    + apply NoDup_cons_iff. split; [| exact Hnd'].
      intros Hin. apply Hnotin. apply in_map_iff in Hin.
      destruct Hin as (x & Hx & Hxin). apply in_map_iff. exists x.
      split; [exact Hx | apply Hsub; exact Hxin].
    + intros img' [<- | Hin]; [left; reflexivity | right; apply Hsub; exact Hin].
Qed.

(** What any sequence of completions keeps true, counted from a rendering
    that has seen [n] of them. *)
Lemma decodedInOrder_counts (order : list (nat * string)) :
  forall (r r' : Strip.Rendering) (n : nat),
    Strip.loadedCount r = n ->
    List.length (List.filter Strip.isDrawImage (Strip.ops r)) = n ->
    Strip.captionDrawn r = (3 <=? n)%nat ->
    NoDup (map Strip.index (Strip.decoding r)) ->
    (n + List.length (Strip.decoding r) = 3)%nat ->
    Forall wellPlaced (Strip.ops r) ->
    (forall img, In img (Strip.decoding r) -> (Strip.index img < 3)%nat) ->
    Strip.decodedInOrder order r = Some r' ->
    Strip.loadedCount r' = (n + List.length order)%nat /\
    List.length (List.filter Strip.isDrawImage (Strip.ops r'))
    = (n + List.length order)%nat /\
    Strip.captionDrawn r' = (3 <=? n + List.length order)%nat /\
    (n + List.length order + List.length (Strip.decoding r') = 3)%nat /\
    Forall wellPlaced (Strip.ops r').
Proof.
  induction order as [| [i currentDate] rest IH];
    intros r r' n Hcount Hdraws Hcaption Hnd Hsum Hplaced Hidx Hrun.
  - injection Hrun as <-. cbn [List.length]. rewrite !Nat.add_0_r. auto.
  - cbn [Strip.decodedInOrder] in Hrun.
    destruct (Strip.decoded i currentDate r) as [r1 |] eqn:Hd; [| discriminate].
    unfold Strip.decoded in Hd.
    destruct (find (Strip.stillDecoding i) (Strip.decoding r)) as [img |] eqn:Hfind;
      [| discriminate].
    destruct (decoding_minus_one i _ img Hnd Hfind) as (Hlen & Hnd' & Hsub).
    assert (Himg : (Strip.index img < 3)%nat)
      by (apply Hidx; apply (find_some _ _ Hfind)).
    injection Hd as <-.
    cbn [List.length]. replace (n + S (List.length rest))%nat
      with (S n + List.length rest)%nat by lia.
    refine (IH _ r' (S n) _ _ _ _ _ _ _ Hrun); unfold Strip.onload;
      cbn [Strip.ops Strip.loadedCount Strip.decoding].
    + rewrite Hcount. reflexivity.
    + rewrite Hcount, !filter_app, !length_app, Hdraws.
      destruct (S n =? 3)%nat; cbn; lia.
    + unfold Strip.captionDrawn in *. cbn [Strip.ops].
      rewrite Hcount, !existsb_app, Hcaption.
      destruct (Nat.eqb_spec (S n) 3), (Nat.leb_spec 3 n), (Nat.leb_spec 3 (S n));
        cbn; (reflexivity || lia).
    + exact Hnd'.
    + lia.
    + apply Forall_app. split; [exact Hplaced |].
      apply Forall_app. split.
      * destruct img as [idx src0]. cbn [Strip.index] in *.
        destruct idx as [| [| [| idx]]]; [| | | lia];
          repeat constructor; vm_compute; auto.
      * rewrite Hcount. destruct (S n =? 3)%nat; repeat constructor; reflexivity.
    + intros img' Hin. apply Hidx. apply Hsub. exact Hin.
Qed.

(** The rendering [createPhotoStrip] starts with satisfies what
    [decodedInOrder_counts] needs. *)
Lemma createPhotoStrip_start photos r0 :
  Strip.createPhotoStrip true true photos = Some r0 ->
  List.length photos = 3%nat /\
  Strip.loadedCount r0 = 0%nat /\
  List.length (List.filter Strip.isDrawImage (Strip.ops r0)) = 0%nat /\
  Strip.captionDrawn r0 = false /\
  NoDup (map Strip.index (Strip.decoding r0)) /\
  List.length (Strip.decoding r0) = 3%nat /\
  Forall wellPlaced (Strip.ops r0) /\
  (forall img, In img (Strip.decoding r0) -> (Strip.index img < 3)%nat).
Proof.
  unfold Strip.createPhotoStrip. cbn [negb orb].
  destruct (Nat.eqb_spec (List.length photos) 3) as [Hlen |]; [| discriminate].
  cbn [negb]. intros [= <-]. cbn [Strip.loadedCount Strip.ops Strip.decoding].
  assert (Hidx : map Strip.index (Strip.forEachPhoto photos 0) = [0; 1; 2]%nat)
    by (rewrite forEachPhoto_indices, Hlen; reflexivity).
  repeat split; auto.
  - rewrite Hidx. repeat constructor; cbn; intuition discriminate.
  - rewrite <- (length_map Strip.index), Hidx. reflexivity.
  - repeat constructor; reflexivity.
  - intros img Hin. apply (in_map Strip.index) in Hin. rewrite Hidx in Hin.
    cbn in Hin. intuition lia.
Qed.

(** X12. However many of the three images finish decoding, and in whatever
    order: no image is handled twice, so there are at most three
    completions; the renderer has counted and drawn exactly as many images
    as have completed; and the caption is on the strip if and only if all
    three have.  A still that never decodes therefore leaves the strip
    without its caption. *)
Theorem X12_caption_needs_all_three_decodes
        (capturedPhotos : list CapturedPhoto) (order : list (nat * string))
        (r0 r : Strip.Rendering) :
  Strip.createPhotoStrip true true capturedPhotos = Some r0 ->
  Strip.decodedInOrder order r0 = Some r ->
  (List.length order <= 3)%nat /\
  Strip.loadedCount r = List.length order /\
  List.length (List.filter Strip.isDrawImage (Strip.ops r)) = List.length order /\
  List.length (Strip.decoding r) = (3 - List.length order)%nat /\
  Strip.captionDrawn r = (List.length order =? 3)%nat.
Proof.
  intros Hcreate Hrun.
  destruct (createPhotoStrip_start _ _ Hcreate)
    as (_ & Hcount & Hdraws & Hcaption & Hnd & Hlen & Hplaced & Hidx).
  destruct (decodedInOrder_counts order r0 r 0 Hcount Hdraws Hcaption Hnd
              ltac:(lia) Hplaced Hidx Hrun)
    as (Hc & Hd & Hcap & Hsum & _).
  cbn [Nat.add] in *.
  repeat split; try assumption; try lia.
  rewrite Hcap.
  destruct (Nat.leb_spec 3 (List.length order)),
    (Nat.eqb_spec (List.length order) 3); (reflexivity || lia).
Qed.

Lemma X12_caption_needs_all_three_decodes_witness :
  Strip.decodedInOrder [(2%nat, "May 3, 2025"); (0%nat, "May 3, 2025")]
                       sampleRendering
  = Some (renderingAfter [(2%nat, "May 3, 2025"); (0%nat, "May 3, 2025")]) /\
  Strip.loadedCount
    (renderingAfter [(2%nat, "May 3, 2025"); (0%nat, "May 3, 2025")]) = 2%nat /\
  Strip.captionDrawn
    (renderingAfter [(2%nat, "May 3, 2025"); (0%nat, "May 3, 2025")]) = false.
Proof.
  assert (Hcreate : Strip.createPhotoStrip true true samplePhotos
                    = Some sampleRendering) by (vm_compute; reflexivity).
  assert (Hrun : Strip.decodedInOrder
                   [(2%nat, "May 3, 2025"); (0%nat, "May 3, 2025")] sampleRendering
                 = Some (renderingAfter
                           [(2%nat, "May 3, 2025"); (0%nat, "May 3, 2025")]))
    by (vm_compute; reflexivity).
  destruct (X12_caption_needs_all_three_decodes samplePhotos _ _ _ Hcreate Hrun)
    as (_ & Hcount & _ & _ & Hcaption).
  exact (conj Hrun (conj Hcount Hcaption)).
Defined.

(** X13. Whatever has been decoded so far, everything the renderer has
    painted lies within the 260x650 canvas; two photos never overlap (the
    one with the smaller index ends at least 20 units above the other); and
    the caption, when drawn, is centred at x = 130 on the line y = 610,
    below every photo and above the bottom edge. *)
Theorem X13_strip_layout_fits_and_does_not_overlap
        (capturedPhotos : list CapturedPhoto) (order : list (nat * string))
        (r0 r : Strip.Rendering) :
  Strip.createPhotoStrip true true capturedPhotos = Some r0 ->
  Strip.decodedInOrder order r0 = Some r ->
  (forall op rect,
      In op (Strip.ops r) -> rectOf op = Some rect -> insideStrip rect = true) /\
  (forall img1 x1 y1 w1 h1 img2 x2 y2 w2 h2,
      In (Strip.DrawImage img1 x1 y1 w1 h1) (Strip.ops r) ->
      In (Strip.DrawImage img2 x2 y2 w2 h2) (Strip.ops r) ->
      (Strip.index img1 < Strip.index img2)%nat ->
      y1 + h1 + 20 <= y2) /\
  (forall text x y img xi yi wi hi,
      In (Strip.FillText text x y) (Strip.ops r) ->
      x = 130 /\ y = 610 /\
      (In (Strip.DrawImage img xi yi wi hi) (Strip.ops r) ->
       yi + hi < y /\ y < Strip.STRIP_HEIGHT)).
Proof.
  intros Hcreate Hrun.
  destruct (createPhotoStrip_start _ _ Hcreate)
    as (_ & Hcount & Hdraws & Hcaption & Hnd & Hlen & Hplaced & Hidx).
  destruct (decodedInOrder_counts order r0 r 0 Hcount Hdraws Hcaption Hnd
              ltac:(lia) Hplaced Hidx Hrun)
    as (_ & _ & _ & _ & Hall).
  rewrite Forall_forall in Hall.
  split; [| split].
  - intros op rect Hin Hrect. specialize (Hall op Hin).
    destruct op; cbn in Hrect; try discriminate; injection Hrect as <-;
      cbn [wellPlaced] in Hall; try exact Hall.
    destruct Hall as (Hi & -> & -> & -> & ->).
    unfold insideStrip, Strip.STRIP_WIDTH, Strip.STRIP_HEIGHT.
    rewrite !andb_true_iff, !Z.leb_le. lia.
  - intros img1 x1 y1 w1 h1 img2 x2 y2 w2 h2 Hin1 Hin2 Hlt.
    pose proof (Hall _ Hin1) as (_ & _ & -> & _ & ->).
    pose proof (Hall _ Hin2) as (_ & _ & -> & _ & _).
    lia.
  - intros text x y img xi yi wi hi Htext.
    pose proof (Hall _ Htext) as (-> & ->).
    split; [reflexivity |]. split; [reflexivity |]. intros Himg.
    pose proof (Hall _ Himg) as (Hi & _ & -> & _ & ->).
    unfold Strip.STRIP_HEIGHT. lia.
Qed.

Lemma X13_strip_layout_fits_and_does_not_overlap_witness :
  In (Strip.DrawImage (Strip.mkImage 2 "data:c") 20 390 220 165)
     (Strip.ops (renderingAfter [(1%nat, "May 3, 2025"); (2%nat, "May 3, 2025");
                                 (0%nat, "May 3, 2025")])) /\
  insideStrip (20, 390, 220, 165) = true.
Proof.
  assert (Hcreate : Strip.createPhotoStrip true true samplePhotos
                    = Some sampleRendering) by (vm_compute; reflexivity).
  assert (Hrun : Strip.decodedInOrder
                   [(1%nat, "May 3, 2025"); (2%nat, "May 3, 2025");
                    (0%nat, "May 3, 2025")] sampleRendering
                 = Some (renderingAfter
                           [(1%nat, "May 3, 2025"); (2%nat, "May 3, 2025");
                            (0%nat, "May 3, 2025")]))
    by (vm_compute; reflexivity).
  assert (Hin : In (Strip.DrawImage (Strip.mkImage 2 "data:c") 20 390 220 165)
                   (Strip.ops (renderingAfter
                                 [(1%nat, "May 3, 2025"); (2%nat, "May 3, 2025");
                                  (0%nat, "May 3, 2025")]))).
  { vm_compute. do 27 right. left. reflexivity. }
  split; [exact Hin |].
  exact (proj1 (X13_strip_layout_fits_and_does_not_overlap
                  samplePhotos _ _ _ Hcreate Hrun) _ _ Hin eq_refl).
Defined.

(** ** Download *)

Lemma append_length (s t : string) :
  String.length (s ++ t) = (String.length s + String.length t)%nat.
Proof.
  induction s as [| c s IH]; cbn; [reflexivity | rewrite IH; reflexivity].
Qed.

Lemma append_cancel_r (t : string) : forall s1 s2 : string,
  (s1 ++ t = s2 ++ t)%string -> s1 = s2.
Proof.
  induction s1 as [| c1 s1 IH]; intros [| c2 s2] H.
  - reflexivity.
  - apply (f_equal String.length) in H. cbn in H. rewrite append_length in H. lia.
  - apply (f_equal String.length) in H. cbn in H. rewrite append_length in H. lia.
  - cbn in H. injection H as -> H. f_equal. apply IH. exact H.
Qed.

(** The decimal digits of a number determine it. *)
Lemma numberToString_injective (a b : Z) :
  numberToString a = numberToString b -> a = b.
Proof.
  unfold numberToString. intros H. apply DecimalZ.to_int_inj.
  assert (Hparse : forall z, NilZero.int_of_string (NilZero.string_of_int (Z.to_int z))
                             = Some (Z.to_int z)).
  { intros z. apply NilZero.isi; destruct z as [| p | p]; cbn; try discriminate;
      intros [= Hnil]; apply (DecimalPos.Unsigned.to_uint_nonnil p); exact Hnil. }
  apply (f_equal NilZero.int_of_string) in H. rewrite !Hparse in H.
  injection H as H. exact H.
Qed.

(** X14. [downloadStrip] changes nothing in the component and does nothing
    at all without the strip canvas.  With it, the link carries the JPEG
    data of the canvas and a file name made of the fixed prefix, the
    millisecond clock and ".jpg": two downloads get the same file name
    exactly when they happen in the same millisecond. *)
Theorem X14_download_name_is_the_millisecond_clock
        (jpeg1 jpeg2 : string) (w1 w2 : World) :
  (forall ref w, snd (downloadStrip ref w) = w) /\
  fst (downloadStrip None w1) = None /\
  exists link1 link2,
    fst (downloadStrip (Some jpeg1) w1) = Some link1 /\
    fst (downloadStrip (Some jpeg2) w2) = Some link2 /\
    href link1 = jpeg1 /\
    download link1
    = ("college-wishlist-photos-" ++ numberToString (now w1) ++ ".jpg")%string /\
    (download link1 = download link2 <-> now w1 = now w2).
Proof.
  split; [intros [jpeg |] w; reflexivity |]. split; [reflexivity |].
  eexists. eexists. split; [reflexivity |]. split; [reflexivity |].
  cbn. split; [reflexivity |]. split; [reflexivity |].
  split.
  - intros H. injection H as H.
    apply append_cancel_r in H. apply numberToString_injective. exact H.
  - intros ->. reflexivity.
Qed.

(** ** What is on screen *)

(** X15. Throughout a session the render effect of the strip schedules
    [createPhotoStrip] exactly when the strip view is shown, always 100 ms
    ahead and with the three stills; and [createPhotoStrip], given its
    canvas and context, then never takes its early return on the number of
    stills.  The strip view is therefore never left undrawn for lack of
    stills. *)
Theorem X15_strip_is_rendered_whenever_shown (w : World) :
  reachable w ->
  (photoStripEffect (app w) <> None <-> phase (app w) = Reviewing) /\
  (phase (app w) = Reviewing ->
   photoStripEffect (app w) = Some (100, capturedPhotos (app w)) /\
   exists r0,
     Strip.createPhotoStrip true true (capturedPhotos (app w)) = Some r0 /\
     Strip.decoding r0 = Strip.forEachPhoto (capturedPhotos (app w)) 0 /\
     List.length (Strip.decoding r0) = 3%nat).
Proof.
  intros Hr. pose proof (reachable_Inv w Hr) as (_ & _ & _ & _ & _ & Hstrip).
  assert (Hrev : phase (app w) = Reviewing ->
                 showPhotoStrip (app w) = true /\
                 List.length (capturedPhotos (app w)) = 3%nat).
  { unfold phase. intros Hp.
    destruct (showCurtains (app w)), (isLoading (app w)),
      (showPhotoStrip (app w)) eqn:Hs; try discriminate.
    split; [reflexivity | apply Hstrip; reflexivity]. }
  split; [split |].
  - unfold photoStripEffect. intros Hsome.
    destruct (showPhotoStrip (app w)) eqn:Hs; [| cbn in Hsome; congruence].
    destruct (Hstrip eq_refl) as (_ & Hcur & Hload).
    unfold phase. rewrite Hcur, Hload, Hs. reflexivity.
  - intros Hp. destruct (Hrev Hp) as (Hs & Hlen).
    unfold photoStripEffect. rewrite Hs, Hlen. discriminate.
  - intros Hp. destruct (Hrev Hp) as (Hs & Hlen).
    unfold photoStripEffect, Strip.createPhotoStrip. rewrite Hs, Hlen.
    split; [reflexivity |]. cbn [negb orb Nat.eqb]. eexists.
    split; [reflexivity |]. cbn [Strip.decoding]. split; [reflexivity |].
    rewrite <- (length_map Strip.index), forEachPhoto_indices, length_seq.
    exact Hlen.
Qed.

Lemma X15_strip_is_rendered_whenever_shown_witness :
  reachable (worldAfter toReviewing) /\
  photoStripEffect (app (worldAfter toReviewing))
  = Some (100, capturedPhotos (app (worldAfter toReviewing))).
Proof.
  assert (Hr : reachable (worldAfter toReviewing)).
  { exists toReviewing. vm_compute. reflexivity. }
  destruct (X15_strip_is_rendered_whenever_shown _ Hr) as (_ & Hshown).
  assert (Hp : phase (app (worldAfter toReviewing)) = Reviewing)
    by (vm_compute; reflexivity).
  exact (conj Hr (proj1 (Hshown Hp))).
Defined.

(** X16. Throughout a session the line under the shutter shows exactly one
    of its four texts: the four conditions on the number of stills exclude
    each other, and one of them always holds because there are never more
    than three stills. *)
Theorem X16_exactly_one_status_text (w : World) :
  reachable w ->
  exists text,
    statusText (app w) = [text] /\
    (text = "All photos taken!" <-> shutterDisabled (app w) = true
                                     /\ isCapturing (app w) = false).
Proof.
  intros Hr. pose proof (reachable_Inv w Hr) as (Hle & _ & _ & Hcap & _).
  unfold statusText, shutterDisabled.
  destruct (capturedPhotos (app w)) as [| p0 [| p1 [| p2 [| p3 rest]]]];
    cbn in Hle; try lia; cbn; eexists; (split; [reflexivity |]).
  1-3: split; [discriminate |]; intros (Hd & Hc); rewrite Hc in Hd; discriminate.
  split; [intros _ | reflexivity].
  split; [apply orb_true_r |].
  destruct (isCapturing (app w)); [| reflexivity].
  destruct (Hcap eq_refl) as (Hlt & _). cbn in Hlt. lia.
Qed.

Lemma X16_exactly_one_status_text_witness :
  reachable (worldAfter (toLive ++ oneCapture 0 workingBrowser)) /\
  statusText (app (worldAfter (toLive ++ oneCapture 0 workingBrowser)))
  = ["Great! Take 2 more photos"].
Proof.
  assert (Hr : reachable (worldAfter (toLive ++ oneCapture 0 workingBrowser))).
  { exists (toLive ++ oneCapture 0 workingBrowser). vm_compute. reflexivity. }
  destruct (X16_exactly_one_status_text _ Hr) as (text & Htext & _).
  split; [exact Hr |]. rewrite Htext.
  assert (Hc : statusText (app (worldAfter (toLive ++ oneCapture 0 workingBrowser)))
               = ["Great! Take 2 more photos"]) by (vm_compute; reflexivity).
  rewrite Htext in Hc. exact Hc.
Defined.

(** ** The coin *)

Lemma removeAt_middle {A} (l : list A) (x : A) (rest : list A) :
  removeAt (List.length l) (l ++ x :: rest) = l ++ rest.
Proof.
  unfold removeAt.
  rewrite firstn_app, Nat.sub_diag, firstn_all. cbn [firstn]. rewrite app_nil_r.
  replace (S (List.length l)) with (List.length (l ++ [x]))
    by (rewrite length_app; cbn; lia).
  replace (l ++ x :: rest) with ((l ++ [x]) ++ rest)
    by (rewrite <- app_assoc; reflexivity).
  rewrite skipn_app, Nat.sub_diag, skipn_all. reflexivity.
Qed.

(** Running, one after the other, [n] openings that are queued behind
    [p]: each opens the curtains and, the browser having [getUserMedia],
    leaves one camera request in flight. *)
Lemma openings_request_the_camera (b : Browser) (due : Z) (n : nat) :
  mediaDevices_getUserMedia b = true ->
  forall (w : World) (p behind : list (Z * Callback)),
    now w <= due ->
    pending w = p ++ repeat (due, OpenCurtains) n ++ behind ->
    exists w',
      run (repeat (Fire (List.length p) b) n) w = Some w' /\
      pending w' = p ++ behind ++ repeat (due + 0, GetUserMediaSettled) n /\
      alerts w' = alerts w /\
      stream (app w') = stream (app w) /\
      ((0 < n)%nat -> showCurtains (app w') = false /\ now w' = due).
Proof.
  intros Hgum. induction n as [| n IH]; intros w p behind Hnow Hpending.
  - exists w. cbn [repeat run List.app] in *. rewrite app_nil_r.
    repeat split; auto; lia.
  - cbn [repeat List.app] in Hpending. cbn [repeat run].
    assert (Hstep : step (Fire (List.length p) b) w
              = Some (mkWorld (withShowCurtains false (app w)) due
                              (p ++ repeat (due, OpenCurtains) n
                                 ++ (behind ++ [(due + 0, GetUserMediaSettled)]))
                              (alerts w) (canvas w) (stoppedTracks w))).
    { unfold step, dequeue. rewrite Hpending.
      rewrite nth_error_app2 by lia. rewrite Nat.sub_diag. cbn [nth_error].
      rewrite removeAt_middle.
      unfold runCallback, openCurtains, requestCameraAccess. rewrite Hgum.
      cbn -[Z.add Z.max]. replace (Z.max (now w) due) with due by lia.
      rewrite <- !app_assoc. reflexivity. }
    rewrite Hstep.
    destruct (IH (mkWorld (withShowCurtains false (app w)) due
                          (p ++ repeat (due, OpenCurtains) n
                             ++ (behind ++ [(due + 0, GetUserMediaSettled)]))
                          (alerts w) (canvas w) (stoppedTracks w))
                 p (behind ++ [(due + 0, GetUserMediaSettled)]))
      as (w' & Hrun & Hp' & Ha' & Hs' & Hopen); [cbn; lia | reflexivity |].
    exists w'. split; [exact Hrun |]. split.
    { rewrite Hp', <- !app_assoc. reflexivity. }
    split; [exact Ha' |]. split; [exact Hs' |].
    intros _. destruct n as [| n].
    + cbn [repeat run] in Hrun. injection Hrun as <-. split; reflexivity.
    + destruct (Hopen ltac:(lia)) as (Hc & Ht). split; assumption.
Qed.

(** X17. [initializePhotoBooth] is not guarded by [curtainsAnimating]:
    while the curtains are still shown every click on the coin is
    delivered and queues one more opening, due two seconds later.  Every
    one of these openings, also the first, which runs while the curtains
    are still shown, calls [requestCameraAccess]: when they have run in a
    browser that has [getUserMedia], as many camera requests are in flight
    as the coin was clicked.  Once an opening has run the curtains are open
    and a click on the coin is no longer delivered. *)
Theorem X17_every_coin_click_requests_the_camera
        (clicks : nat) (w : World) (b : Browser) :
  showCurtains (app w) = true ->
  mediaDevices_getUserMedia b = true ->
  exists w' w'',
    run (repeat ClickCoin clicks) w = Some w' /\
    pending w' = pending w ++ repeat (now w + 2000, OpenCurtains) clicks /\
    showCurtains (app w') = true /\
    now w' = now w /\
    run (repeat (Fire (List.length (pending w)) b) clicks) w' = Some w'' /\
    pending w''
    = pending w ++ repeat (now w + 2000 + 0, GetUserMediaSettled) clicks /\
    alerts w'' = alerts w /\
    ((0 < clicks)%nat ->
     showCurtains (app w'') = false /\ step ClickCoin w'' = None).
Proof.
  intros Hcur Hgum.
  assert (Hclicks : forall n w0,
             showCurtains (app w0) = true ->
             exists w1,
               run (repeat ClickCoin n) w0 = Some w1 /\
               pending w1 = pending w0 ++ repeat (now w0 + 2000, OpenCurtains) n /\
               showCurtains (app w1) = true /\ now w1 = now w0 /\
               alerts w1 = alerts w0).
  { induction n as [| n IH]; intros w0 Hc0.
    - exists w0. cbn [repeat run]. rewrite app_nil_r. auto.
    - cbn [repeat run]. unfold step at 1, phase. rewrite Hc0.
      cbn [SessionPhase_eqb].
      destruct (IH (exec initializePhotoBooth w0) Hc0)
        as (w1 & Hrun & Hp & Hc1 & Hn1 & Ha1).
      exists w1. split; [exact Hrun |]. split.
      + rewrite Hp. cbn -[Z.add]. rewrite <- app_assoc. reflexivity.
      + auto. }
  destruct (Hclicks clicks w Hcur) as (w' & Hrun & Hp & Hc' & Hn' & Ha').
  destruct (openings_request_the_camera b (now w + 2000) clicks Hgum
              w' (pending w) [])
    as (w'' & Hrun' & Hp'' & Ha'' & _ & Hopen).
  { lia. }
  { rewrite Hp, app_nil_r. reflexivity. }
  exists w', w''. cbn [List.app] in Hp''.
  repeat (split; [assumption || congruence |]).
  intros Hpos. destruct (Hopen Hpos) as (Hc'' & _). split; [exact Hc'' |].
  unfold step, phase. rewrite Hc''.
  destruct (isLoading (app w'')), (showPhotoStrip (app w'')); reflexivity.
Qed.

Lemma X17_every_coin_click_requests_the_camera_witness :
  exists w' w'',
    run [ClickCoin; ClickCoin] initialWorld = Some w' /\
    pending w' = [(2000, OpenCurtains); (2000, OpenCurtains)] /\
    run [Fire 0 workingBrowser; Fire 0 workingBrowser] w' = Some w'' /\
    pending w'' = [(2000, GetUserMediaSettled); (2000, GetUserMediaSettled)].
Proof.
  destruct (X17_every_coin_click_requests_the_camera
              2 initialWorld workingBrowser eq_refl eq_refl)
    as (w' & w'' & Hrun & Hp & _ & _ & Hrun' & Hp' & _).
  exists w', w''. exact (conj Hrun (conj Hp (conj Hrun' Hp'))).
Defined.
